(** * cosmos-upgrades: the upgrade-detection pipeline of [app.py]

    A shallow embedding of the endpoint prober, the chain-height reader,
    the two upgrade-plan readers, the per-network reconciler and the final
    sort of the batch endpoint, followed by the properties proved about
    them.

    Modelling conventions.
    - Python exceptions are values of [exn]; a computation that may raise
      returns a [result].
    - Every outbound HTTP request goes through one abstract operation
      [http_get] on an abstract [World]; the world is threaded through all
      calls, so two requests to one URL may be answered differently.
    - [random.shuffle] is an abstract operation on the same world, known
      only to return a permutation of its argument.
    - Text is a [string] over the code points below U+0100; [print] and
      [logging] output is not modelled. *)

From Stdlib Require Import ZArith List String Ascii Bool Lia QArith_base.
From Stdlib Require Import Permutation.
Import ListNotations.

Local Open Scope string_scope.
Local Open Scope Z_scope.
Local Set Warnings "-register-all".

(** ** Exceptions and results *)

(** The subclasses of [requests.RequestException] the code can meet.
    [JSONDecodeError] is the one [Response.json] raises on a body that is
    not JSON: in requests 2.27 and later it derives from
    [RequestException]. *)
Inductive request_exception : Type :=
  | Timeout
  | ConnectionError
  | HTTPError
  | JSONDecodeError
  | OtherRequestException.

Inductive exn : Type :=
  | RequestException (k : request_exception)
  | ValueError
  | TypeError
  | AttributeError
  | OverflowError
  | RecursionError.

Inductive result (A : Type) : Type :=
  | Ok (a : A)
  | Raise (e : exn).

Arguments Ok {A} a.
Arguments Raise {A} e.

(** ** Values decoded from JSON *)

Inductive pyfloat : Type :=
  | Finite (q : Q)
  | Infinity (negative : bool)
  | NaN.

(** A Python value as [json.loads] builds it.  A [dict] is the list of its
    items; lookup takes the first binding of a key. *)
Inductive json : Type :=
  | JNull
  | JBool (b : bool)
  | JInt (n : Z)
  | JFloat (f : pyfloat)
  | JStr (s : string)
  | JList (l : list json)
  | JDict (items : list (string * json)).

Fixpoint assoc (k : string) (items : list (string * json)) : option json :=
  match items with
  | [] => None
  | (k', v) :: rest => if String.eqb k k' then Some v else assoc k rest
  end.

(** [d.get(k, default)]: only a dict has the method. *)
Definition dict_get (d : json) (k : string) (default : json) : result json :=
  match d with
  | JDict items =>
      match assoc k items with
      | Some v => Ok v
      | None => Ok default
      end
  | _ => Raise AttributeError
  end.

(** Truth value of an object in a condition. *)
Definition truthy (v : json) : bool :=
  match v with
  | JNull => false
  | JBool b => b
  | JInt n => negb (n =? 0)
  | JFloat (Finite q) => negb (Qnum q =? 0)
  | JFloat _ => true
  | JStr s => negb (String.eqb s "")
  | JList l => match l with [] => false | _ => true end
  | JDict items => match items with [] => false | _ => true end
  end.

(** [for x in v]: the items a loop over [v] visits. *)
Definition py_iter (v : json) : result (list json) :=
  match v with
  | JList l => Ok l
  | JDict items => Ok (map (fun kv => JStr (fst kv)) items)
  | JStr s => Ok (map (fun c => JStr (String c "")) (list_ascii_of_string s))
  | _ => Raise TypeError
  end.

(** ** [int(x)] *)

Definition is_digit (c : ascii) : bool :=
  let n := nat_of_ascii c in (48 <=? n)%nat && (n <=? 57)%nat.

Definition digit_value (c : ascii) : Z := Z.of_nat (nat_of_ascii c) - 48.

(** The characters [int] takes for white space, among the code points
    below U+0100: tab to carriage return and the space, which it skips
    itself, and U+0085 and U+00A0, which it first turns into spaces.
    The separators U+001C to U+001F are not among them. *)
Definition is_space (c : ascii) : bool :=
  let n := nat_of_ascii c in
  ((9 <=? n)%nat && (n <=? 13)%nat) || (n =? 32)%nat ||
  (n =? 133)%nat || (n =? 160)%nat.

Fixpoint lstrip (cs : list ascii) : list ascii :=
  match cs with
  | c :: rest => if is_space c then lstrip rest else cs
  | [] => []
  end.

Definition strip (cs : list ascii) : list ascii :=
  rev (lstrip (rev (lstrip cs))).

(** Digits, with single underscores allowed between two digits. *)
Fixpoint digits_value (cs : list ascii) (acc : Z) (after_digit : bool)
  : option Z :=
  match cs with
  | [] => if after_digit then Some acc else None
  | c :: rest =>
      if is_digit c then digits_value rest (10 * acc + digit_value c) true
      else if Ascii.eqb c "_"%char then
        if after_digit then digits_value rest acc false else None
      else None
  end.

(** [sys.get_int_max_str_digits()]: the default of the interpreter. *)
Definition int_max_str_digits : Z := 4300.

(** The digits after the sign: [int] refuses a text with more digits
    than the limit, whatever else the text holds. *)
Definition limited_digits_value (ds : list ascii) : option Z :=
  if int_max_str_digits <? Z.of_nat (List.length (filter is_digit ds))
  then None
  else digits_value ds 0 false.

Definition int_of_string (s : string) : option Z :=
  match strip (list_ascii_of_string s) with
  | c :: ds =>
      if Ascii.eqb c "-"%char then option_map Z.opp (limited_digits_value ds)
      else if Ascii.eqb c "+"%char then limited_digits_value ds
      else limited_digits_value (c :: ds)
  | [] => limited_digits_value []
  end.

Definition py_int (v : json) : result Z :=
  match v with
  | JInt n => Ok n
  | JBool b => Ok (if b then 1 else 0)
  | JFloat (Finite q) => Ok (Z.quot (Qnum q) (Z.pos (Qden q)))
  | JFloat (Infinity _) => Raise OverflowError
  | JFloat NaN => Raise ValueError
  | JStr s =>
      match int_of_string s with
      | Some n => Ok n
      | None => Raise ValueError
      end
  | JNull | JList _ | JDict _ => Raise TypeError
  end.

(** ** [SEMANTIC_VERSION_PATTERN = re.compile(r'v(\d+(?:\.\d+){0,2})')]

    The matcher below follows the pattern piece by piece.  Every
    quantifier in it is greedy and nothing follows the last one, so the
    engine never has to give back what a quantifier took. *)

(** [\d*] at the head of [s]: the digits taken and the text left. *)
Fixpoint span_digits (s : string) : string * string :=
  match s with
  | String c r =>
      if is_digit c
      then let (d, t) := span_digits r in (String c d, t)
      else (EmptyString, s)
  | EmptyString => (EmptyString, EmptyString)
  end.

(** [\.\d+] at the head of [s]. *)
Definition match_dot_digits (s : string) : option (string * string) :=
  match s with
  | String c r =>
      if Ascii.eqb c "."%char then
        match span_digits r with
        | (EmptyString, _) => None
        | (d, t) => Some (String c d, t)
        end
      else None
  | EmptyString => None
  end.

(** [(?:\.\d+){0,2}] at the head of [s]: the text matched. *)
Definition match_groups (s : string) : string :=
  match match_dot_digits s with
  | None => EmptyString
  | Some (g1, t1) =>
      match match_dot_digits t1 with
      | None => g1
      | Some (g2, _) => g1 ++ g2
      end
  end.

(** The whole pattern anchored at the head of [s]; the result is
    [group(1)]. *)
Definition match_here (s : string) : option string :=
  match s with
  | String c r =>
      if Ascii.eqb c "v"%char then
        match span_digits r with
        | (EmptyString, _) => None
        | (d, t) => Some (d ++ match_groups t)
        end
      else None
  | EmptyString => None
  end.

(** [SEMANTIC_VERSION_PATTERN.search(s)], reduced to [group(1)] of the
    match found: the start positions are tried from left to right. *)
Fixpoint search (s : string) : option string :=
  match match_here s with
  | Some g => Some g
  | None =>
      match s with
      | String _ r => search r
      | EmptyString => None
      end
  end.

(** [pattern.search(x)] needs a [str]. *)
Definition py_search (x : json) : result (option string) :=
  match x with
  | JStr s => Ok (search s)
  | _ => Raise TypeError
  end.

(** ** The network and the monad of the pipeline *)

(** An exception of the JSON decoder that [Response.json] does not
    turn into a [JSONDecodeError]: the [ValueError] of an integer literal
    with more digits than [int] takes, the [RecursionError] of a nesting
    that is too deep. *)
Inductive decoder_error : Type :=
  | LiteralTooLong
  | NestingTooDeep.

Definition decoder_exn (d : decoder_error) : exn :=
  match d with
  | LiteralTooLong => ValueError
  | NestingTooDeep => RecursionError
  end.

(** What [Response.json] makes of a body: a text that is not JSON, the
    data it decodes to, or an exception the decoder lets through. *)
Inductive body : Type :=
  | NotJSON
  | Decoded (data : json)
  | Undecodable (d : decoder_error).

(** What comes back from the server: the status code and the body. *)
Record response : Type := {
  status_code : Z;
  json_body : body
}.

(** [requests.get] either raises (no response: timeout, refused
    connection, ...) or returns the response received. *)
Inductive http_outcome : Type :=
  | Failed (k : request_exception)
  | Received (r : response).

(** An entry of the registry's [apis.rest] or [apis.rpc] list that
    carries an address, the member [rpc['address']] reads.  An entry
    without one, on which lines 33 and 39 raise [KeyError], is not a
    value of this type: what is proved of the prober and the reconciler
    is proved of lists whose entries all have an address. *)
Record endpoint : Type := {
  address : string;
  provider : string
}.

(** The outside of the program: the network and the random generator.
    [shuffle] stands for [random.shuffle], which reorders the list it is
    given. *)
Class Environment : Type := {
  World : Type;
  http_get : string -> World -> http_outcome * World;
  shuffle : list endpoint -> World -> list endpoint * World;
  shuffle_permutation : forall l w, Permutation (fst (shuffle l w)) l
}.

Definition M `{Environment} (A : Type) : Type := World -> result A * World.

Definition ret `{Environment} {A : Type} (a : A) : M A :=
  fun w => (Ok a, w).

Definition raise `{Environment} {A : Type} (e : exn) : M A :=
  fun w => (Raise e, w).

Definition bind `{Environment} {A B : Type} (m : M A) (k : A -> M B) : M B :=
  fun w =>
    match m w with
    | (Ok a, w') => k a w'
    | (Raise e, w') => (Raise e, w')
    end.

(** [try: body  except <class>: handler]. *)
Definition try_except `{Environment} {A : Type}
    (body : M A) (caught : exn -> bool) (handler : exn -> M A) : M A :=
  fun w =>
    match body w with
    | (Ok a, w') => (Ok a, w')
    | (Raise e, w') => if caught e then handler e w' else (Raise e, w')
    end.

Definition lift `{Environment} {A : Type} (r : result A) : M A :=
  fun w => (r, w).

Declare Scope py_scope.
Delimit Scope py_scope with py.

Notation "x <- m ;; k" := (bind m (fun x => k))
  (at level 61, m at next level, right associativity) : py_scope.
Notation "' p <- m ;; k" := (bind m (fun x => match x with p => k end))
  (at level 61, p pattern, m at next level, right associativity) : py_scope.

Definition rbind {A B : Type} (r : result A) (k : A -> result B) : result B :=
  match r with
  | Ok a => k a
  | Raise e => Raise e
  end.

Notation "'let?' x := r 'in' k" := (rbind r (fun x => k))
  (at level 10, x name, r at level 100, k at level 200) : py_scope.

Local Open Scope py_scope.

(** [except requests.RequestException] *)
Definition is_RequestException (e : exn) : bool :=
  match e with
  | RequestException _ => true
  | _ => false
  end.

(** [except Exception], and the bare [except] as far as [exn] goes. *)
Definition is_Exception (e : exn) : bool := true.

Definition requests_get `{Environment} (url : string) : M response :=
  fun w =>
    match http_get url w with
    | (Failed k, w') => (Raise (RequestException k), w')
    | (Received r, w') => (Ok r, w')
    end.

(** [response.raise_for_status()]: raises for the 4xx and 5xx codes. *)
Definition raise_for_status `{Environment} (r : response) : M unit :=
  if (400 <=? status_code r) && (status_code r <? 600)
  then raise (RequestException HTTPError)
  else ret tt.

(** [response.json()] *)
Definition response_json `{Environment} (r : response) : M json :=
  match json_body r with
  | Decoded data => ret data
  | NotJSON => raise (RequestException JSONDecodeError)
  | Undecodable d => raise (decoder_exn d)
  end.

(** ** Endpoint Prober (lines 31-48) *)

Definition is_endpoint_healthy `{Environment} (endpoint : string) : M bool :=
  try_except
    (response <- requests_get (endpoint ++ "/health") ;;
     ret (status_code response =? 200))
    is_Exception
    (fun _ => ret false).

(** [executor.map(f, xs)]: the results come back in the order of [xs].
    The pool runs up to ten calls at a time, so the order in which their
    requests reach the network is not fixed; the model runs the calls
    one after the other, which is one of the orders the pool allows. *)
Fixpoint executor_map `{Environment} {A B : Type} (f : A -> M B) (xs : list A)
  : M (list B) :=
  match xs with
  | [] => ret []
  | x :: rest =>
      y <- f x ;;
      ys <- executor_map f rest ;;
      ret (y :: ys)
  end.

Definition get_healthy_rpc_endpoints `{Environment}
    (rpc_endpoints : list endpoint) : M (list endpoint) :=
  probed <- executor_map
              (fun rpc =>
                 is_healthy <- is_endpoint_healthy (address rpc) ;;
                 ret (rpc, is_healthy))
              rpc_endpoints ;;
  let healthy_rpc_endpoints := map fst (filter snd probed) in
  ret (firstn 5 healthy_rpc_endpoints).

Definition get_healthy_rest_endpoints `{Environment}
    (rest_endpoints : list endpoint) : M (list endpoint) :=
  probed <- executor_map
              (fun rest =>
                 is_healthy <- is_endpoint_healthy (address rest) ;;
                 ret (rest, is_healthy))
              rest_endpoints ;;
  let healthy_rest_endpoints := map fst (filter snd probed) in
  ret (firstn 5 healthy_rest_endpoints).

(** ** Chain-Height Reader (lines 76-84) *)

(** Line 82: the expression returned. *)
Definition status_height (data : json) : result Z :=
  let? result := dict_get data "result" (JDict []) in
  let? sync_info := dict_get result "sync_info" (JDict []) in
  let? height := dict_get sync_info "latest_block_height" (JInt 0) in
  py_int height.

Definition get_latest_block_height_rpc `{Environment} (rpc_url : string)
  : M Z :=
  try_except
    (response <- requests_get (rpc_url ++ "/status") ;;
     _ <- raise_for_status response ;;
     data <- response_json response ;;
     lift (status_height data))
    is_RequestException
    (fun _ => ret (-1)).

(** ** Upgrade-Plan Reader (lines 111-181) *)

Definition SoftwareUpgradeProposal : string :=
  "/cosmos.upgrade.v1beta1.SoftwareUpgradeProposal".

(** [x == "<literal>"] *)
Definition eq_str (x : json) (literal : string) : bool :=
  match x with
  | JStr s => String.eqb s literal
  | _ => false
  end.

(** [if version:] for a version that is a [str] or [None]. *)
Definition version_truthy (version : option string) : bool :=
  match version with
  | Some v => negb (String.eqb v "")
  | None => false
  end.

(** Lines 135-142: the version of a proposal from its two matches. *)
Definition select_version
    (plan_version_match description_version_match : option string)
  : option string :=
  match plan_version_match, description_version_match with
  | Some p, Some d =>
      Some (if (String.length d <? String.length p)%nat then p else d)
  | Some p, None => Some p
  | None, Some d => Some d
  | None, None => None
  end.

(** [try: height = int(x)  except ValueError: height = 0] *)
Definition int_or_zero (x : json) : result Z :=
  match py_int x with
  | Raise ValueError => Ok 0
  | r => r
  end.

(** The body of the loop over the proposals (lines 123-150): [Some] is
    the [return version, height], [None] falls through to the next
    proposal. *)
Definition examine_proposal (proposal : json) : result (option (string * Z)) :=
  let? content := dict_get proposal "content" (JDict []) in
  let? type := dict_get content "@type" JNull in
  if eq_str type SoftwareUpgradeProposal then
    let? plan := dict_get content "plan" (JDict []) in
    let? plan_name := dict_get plan "name" (JStr "") in
    let? plan_version_match := py_search plan_name in
    let? description := dict_get content "description" (JStr "") in
    let? description_version_match := py_search description in
    let version := select_version plan_version_match description_version_match in
    let? plan := dict_get content "plan" (JDict []) in
    let? height_field := dict_get plan "height" (JInt 0) in
    let? height := int_or_zero height_field in
    match version with
    | Some v => if version_truthy version then Ok (Some (v, height)) else Ok None
    | None => Ok None
    end
  else Ok None.

Fixpoint scan_proposals (proposals : list json)
  : result (option string * option Z) :=
  match proposals with
  | [] => Ok (None, None)
  | proposal :: rest =>
      let? found := examine_proposal proposal in
      match found with
      | Some (version, height) => Ok (Some version, Some height)
      | None => scan_proposals rest
      end
  end.

(** Lines 122-151: the loop over [data.get("proposals", [])] and the
    [return None, None] after it. *)
Definition read_proposals (data : json) : result (option string * option Z) :=
  let? field := dict_get data "proposals" (JList []) in
  let? proposals := py_iter field in
  scan_proposals proposals.

Definition fetch_active_upgrade_proposals `{Environment} (rest_url : string)
  : M (option string * option Z) :=
  try_except
    (try_except
       (response <- requests_get
                      (rest_url ++ "/cosmos/gov/v1beta1/proposals?proposal_status=2") ;;
        if status_code response =? 501 then ret (None, None)
        else
          _ <- raise_for_status response ;;
          data <- response_json response ;;
          lift (read_proposals data))
       is_RequestException
       (fun e => raise e))
    is_Exception
    (fun e => raise e).

Definition fetch_current_upgrade_plan `{Environment} (rest_url : string)
  : M (option string * option Z) :=
  try_except
    (try_except
       (response <- requests_get
                      (rest_url ++ "/cosmos/upgrade/v1beta1/current_plan") ;;
        _ <- raise_for_status response ;;
        data <- response_json response ;;
        lift (let? plan := dict_get data "plan" (JDict []) in
              if truthy plan then
                let? name := dict_get plan "name" (JStr "") in
                let? version_match := py_search name in
                match version_match with
                | Some version =>
                    let? height_field := dict_get plan "height" (JInt 0) in
                    let? height := int_or_zero height_field in
                    Ok (Some version, Some height)
                | None => Ok (None, None)
                end
              else Ok (None, None)))
       is_RequestException
       (fun e => raise e))
    is_Exception
    (fun e => raise e).

(** ** Network Reconciler (lines 183-252) *)

Definition SERVER_BLACKLIST : list string :=
  [ "https://stride.api.bccnodes.com:443";
    "https://api.omniflix.nodestake.top";
    "https://cosmos-lcd.quickapi.com:443" ].

(** [x in SERVER_BLACKLIST] *)
Definition blacklisted (x : string) : bool :=
  existsb (String.eqb x) SERVER_BLACKLIST.

(** The value of [endpoints]: the two lists of a network. *)
Record endpoints_entry : Type := {
  rest : list endpoint;
  rpc : list endpoint
}.

(** The dictionary [output_data]. *)
Record NetworkResult : Type := {
  type : string;
  network : string;
  upgrade_found : bool;
  latest_block_height : Z;
  upgrade_block_height : option Z;
  version : string;
  rpc_server : string;
  source : string
}.

(** The loop of lines 201-205.  [height] is the current value of the
    variable [latest_block_height]; the result is that variable and
    [rpc_server_used] when the loop is left. *)
Fixpoint rpc_scan `{Environment} (healthy_rpc_endpoints : list endpoint)
    (height : Z) : M (Z * string) :=
  match healthy_rpc_endpoints with
  | [] => ret (height, "")
  | rpc_endpoint :: remaining =>
      height <- get_latest_block_height_rpc (address rpc_endpoint) ;;
      if height >? 0 then ret (height, address rpc_endpoint)
      else rpc_scan remaining height
  end.

(** The three variables the second loop assigns:
    [upgrade_block_height], [upgrade_version], [source]. *)
Definition upgrade_vars : Type := (option Z * string * string)%type.

Definition no_upgrade : upgrade_vars := (None, "", "").

(** The test of lines 230 and 236. *)
Definition acceptable (upgrade_version : option string)
    (upgrade_height : option Z) (height : Z) : bool :=
  version_truthy upgrade_version &&
  match upgrade_height with
  | Some h => h >? height
  | None => false
  end.

(** How one iteration of the second loop ends. *)
Inductive step : Type :=
  | Break (vars : upgrade_vars)
  | Continue.

(** Lines 220-221 inside their [try]. *)
Definition query_both `{Environment} (current_endpoint : string)
  : M ((option string * option Z) * (option string * option Z)) :=
  active <- fetch_active_upgrade_proposals current_endpoint ;;
  current <- fetch_current_upgrade_plan current_endpoint ;;
  ret (active, current).

(** The text of a version that passed the test: it is not [None]. *)
Definition version_text (upgrade_version : option string) : string :=
  match upgrade_version with
  | Some v => v
  | None => ""
  end.

(** Lines 230-240, once both queries have returned. *)
Definition choose (active current : option string * option Z) (height : Z)
  : step :=
  let '(active_upgrade_version, active_upgrade_height) := active in
  let '(current_upgrade_version, current_upgrade_height) := current in
  if acceptable active_upgrade_version active_upgrade_height height then
    Break (active_upgrade_height, version_text active_upgrade_version,
           "active_upgrade_proposals")
  else if acceptable current_upgrade_version current_upgrade_height height then
    Break (current_upgrade_height, version_text current_upgrade_version,
           "current_upgrade_plan")
  else Continue.

(** One iteration of the loop of lines 214-240; [total] is
    [len(healthy_rest_endpoints)].  The three variables still have their
    initial values whenever an iteration starts. *)
Definition rest_iteration `{Environment} (total : nat) (height : Z)
    (index : nat) (rest_endpoint : endpoint) : M step :=
  let current_endpoint := address rest_endpoint in
  if blacklisted current_endpoint then ret Continue
  else
    fun w =>
      match query_both current_endpoint w with
      | (Raise _, w') =>
          if (index + 1 <? total)%nat then (Ok Continue, w')
          else (Ok (Break no_upgrade), w')
      | (Ok (active, current), w') => (Ok (choose active current height), w')
      end.

Fixpoint rest_loop `{Environment} (total : nat) (height : Z) (index : nat)
    (remaining : list endpoint) : M upgrade_vars :=
  match remaining with
  | [] => ret no_upgrade
  | rest_endpoint :: remaining' =>
      outcome <- rest_iteration total height index rest_endpoint ;;
      match outcome with
      | Break vars => ret vars
      | Continue => rest_loop total height (S index) remaining'
      end
  end.

Definition do_shuffle `{Environment} (l : list endpoint) : M (list endpoint) :=
  fun w => let (l', w') := shuffle l w in (Ok l', w').

Definition fetch_data_for_network `{Environment} (network : string)
    (endpoints : endpoints_entry) (network_type : string) : M NetworkResult :=
  let rest_endpoints := rest endpoints in
  let rpc_endpoints := rpc endpoints in
  healthy_rpc_endpoints <- get_healthy_rpc_endpoints rpc_endpoints ;;
  healthy_rest_endpoints <- get_healthy_rest_endpoints rest_endpoints ;;
  healthy_rpc_endpoints <- do_shuffle healthy_rpc_endpoints ;;
  healthy_rest_endpoints <- do_shuffle healthy_rest_endpoints ;;
  '(height, rpc_server_used) <- rpc_scan healthy_rpc_endpoints (-1) ;;
  healthy_rest_endpoints <- do_shuffle healthy_rest_endpoints ;;
  '(upgrade_height, upgrade_version, source_used) <-
     rest_loop (List.length healthy_rest_endpoints) height 0%nat
               healthy_rest_endpoints ;;
  ret {| type := network_type;
         network := network;
         upgrade_found := negb (String.eqb upgrade_version "");
         latest_block_height := height;
         upgrade_block_height := upgrade_height;
         version := upgrade_version;
         rpc_server := rpc_server_used;
         source := source_used |}.

(** ** Batch Orchestrator: the final sort (lines 272-273) *)

(** [a <= b] on the keys, [False < True]. *)
Definition key_le (a b : bool) : bool := implb a b.

Fixpoint insert_by {A : Type} (key : A -> bool) (x : A) (l : list A)
  : list A :=
  match l with
  | [] => [x]
  | y :: rest =>
      if key_le (key x) (key y) then x :: l else y :: insert_by key x rest
  end.

(** A stable ascending sort: what [sorted] guarantees for equal keys. *)
Fixpoint stable_sort {A : Type} (key : A -> bool) (l : list A) : list A :=
  match l with
  | [] => []
  | x :: rest => insert_by key x (stable_sort key rest)
  end.

(** [sorted(l, key=key, reverse=reverse)].  With [reverse] the list is
    reversed, sorted and reversed again, which keeps the sort stable. *)
Definition sorted {A : Type} (l : list A) (key : A -> bool) (reverse : bool)
  : list A :=
  if reverse then rev (stable_sort key (rev l)) else stable_sort key l.

Definition sort_results (results : list NetworkResult) : list NetworkResult :=
  sorted results upgrade_found true.

(** ** REST node info (lines 62-74) *)

(** The clock of the program.  [now] is [datetime.now()];
    [elapsed later earlier] is [(later - earlier).total_seconds()], a
    value the model does not look into. *)
Class Clock `{Environment} : Type := {
  datetime : Type;
  seconds : Type;
  now : World -> datetime * World;
  elapsed : datetime -> datetime -> seconds
}.

Definition datetime_now `{Clock} : M datetime :=
  fun w => let (t, w') := now w in (Ok t, w').

(** The second component of the pair returned is the elapsed time; the
    first is [None], that is [JNull], when the request failed. *)
Definition check_rest_endpoint `{Clock} (rest_url : string)
  : M (json * seconds) :=
  start_time <- datetime_now ;;
  try_except
    (response <- requests_get (rest_url ++ "/node_info") ;;
     _ <- raise_for_status response ;;
     end_time <- datetime_now ;;
     let elapsed_time := elapsed end_time start_time in
     data <- response_json response ;;
     app_version <-
       lift (let? application_version :=
               dict_get data "application_version" (JDict []) in
             dict_get application_version "version" JNull) ;;
     ret (app_version, elapsed_time))
    is_RequestException
    (fun _ =>
       end_time <- datetime_now ;;
       ret (JNull, elapsed end_time start_time)).

(** ** The registry (lines 86-109) *)

(** Lines 105-107: the two lists of a decoded [chain.json]. *)
Definition registry_lists (data : json) : result (json * json) :=
  let? apis := dict_get data "apis" (JDict []) in
  let? rest_endpoints := dict_get apis "rest" (JList []) in
  let? apis := dict_get data "apis" (JDict []) in
  let? rpc_endpoints := dict_get apis "rpc" (JList []) in
  Ok (rest_endpoints, rpc_endpoints).

Definition fetch_endpoints `{Environment} (network base_url : string)
  : M (json * json) :=
  try_except
    (response <- requests_get (base_url ++ "/" ++ network ++ "/chain.json") ;;
     _ <- raise_for_status response ;;
     data <- response_json response ;;
     lift (registry_lists data))
    is_RequestException
    (fun _ => ret (JList [], JList [])).

(** [d[k] = v] on a dict given by the list of its items: a key that is
    there keeps its place and takes the new value, a new key goes to the
    end. *)
Fixpoint dict_set (k : string) (v : json) (items : list (string * json))
  : list (string * json) :=
  match items with
  | [] => [(k, v)]
  | (k', v') :: rest =>
      if String.eqb k k' then (k, v) :: rest
      else (k', v') :: dict_set k v rest
  end.

(** The payload of the endpoint: an object whose members are lists of
    network names. *)
Definition payload : Type := list (string * list string).

(** [request_data.get(key, [])] *)
Fixpoint payload_get (request_data : payload) (key : string) : list string :=
  match request_data with
  | [] => []
  | (k, names) :: rest =>
      if String.eqb key k then names else payload_get rest key
  end.

(** The value stored for a network at lines 92-95. *)
Definition registry_entry (lists : json * json) : json :=
  JDict [("rest", fst lists); ("rpc", snd lists)].

(** The loop of lines 90-95, from the map built so far. *)
Fixpoint fetch_all_loop `{Environment} (networks : list string)
    (base_url : string) (endpoints_map : list (string * json))
  : M (list (string * json)) :=
  match networks with
  | [] => ret endpoints_map
  | network :: remaining =>
      lists <- fetch_endpoints network base_url ;;
      fetch_all_loop remaining base_url
        (dict_set network (registry_entry lists) endpoints_map)
  end.

Definition fetch_all_endpoints `{Environment} (network_type base_url : string)
    (request_data : payload) : M (list (string * json)) :=
  let networks :=
    if String.eqb network_type "mainnet"
    then payload_get request_data "MAINNETS"
    else payload_get request_data "TESTNETS" in
  fetch_all_loop networks base_url [].

(** ** A scripted network, for running the pipeline on concrete inputs

    The answer to a request is looked up by URL in a table; a URL that is
    not listed refuses the connection.  The world is the log of the URLs
    requested so far; [shuffle] leaves the order as it is. *)

Fixpoint lookup_url (url : string) (table : list (string * http_outcome))
  : http_outcome :=
  match table with
  | [] => Failed ConnectionError
  | (u, answer) :: rest => if String.eqb url u then answer else lookup_url url rest
  end.

Definition scripted (table : list (string * http_outcome)) : Environment :=
  {| World := list string;
     http_get := fun url log => (lookup_url url table, (log ++ [url])%list);
     shuffle := fun l log => (l, log);
     shuffle_permutation := fun l _ => Permutation_refl l |}.

Definition http_ok (data : json) : http_outcome :=
  Received {| status_code := 200; json_body := Decoded data |}.

Definition http_status (code : Z) : http_outcome :=
  Received {| status_code := code; json_body := NotJSON |}.

Definition status_body (height : json) : json :=
  JDict [("result", JDict [("sync_info",
            JDict [("latest_block_height", height)])])].

Definition upgrade_proposal (name description : string) (height : json) : json :=
  JDict [("content",
          JDict [("@type", JStr SoftwareUpgradeProposal);
                 ("description", JStr description);
                 ("plan", JDict [("name", JStr name); ("height", height)])])].

Definition text_proposal (description : string) : json :=
  JDict [("content",
          JDict [("@type", JStr "/cosmos.gov.v1beta1.TextProposal");
                 ("description", JStr description)])].

Definition proposals_body (proposals : list json) : json :=
  JDict [("proposals", JList proposals)].

Definition plan_body (plan : json) : json := JDict [("plan", plan)].

Definition ep (addr : string) : endpoint :=
  {| address := addr; provider := "" |}.

Definition proposals_path : string :=
  "/cosmos/gov/v1beta1/proposals?proposal_status=2".

Definition current_plan_path : string :=
  "/cosmos/upgrade/v1beta1/current_plan".


(** An RPC node that answers [/status] with a JSON-RPC error object, so
    with no [result] member, next to one that is down and one that
    reports height 800. *)
Definition rpc_error_body : json :=
  JDict [("jsonrpc", JStr "2.0"); ("id", JInt (-1));
         ("error", JDict [("code", JInt (-32603));
                          ("message", JStr "Internal error")])].

Definition rpc_network : Environment :=
  scripted
    [ ("https://rpc.a/health", http_status 200);
      ("https://rpc.a/status", http_ok rpc_error_body);
      ("https://rpc.b/health", http_status 200);
      ("https://rpc.b/status", http_ok (status_body (JStr "800")));
      ("https://rpc.c/health", http_status 200);
      ("https://rpc.c/status", http_status 503);
      ("https://rpc.d/health", http_status 200);
      ("https://rpc.d/status", http_ok (status_body (JStr "n/a"))) ].

(** A network with one RPC node at height 800 and three REST nodes: one
    with an active software-upgrade proposal for v5.0 at height 1000,
    one that does not implement the proposals query and has v3.2 planned
    at height 900, one that is down. *)
Definition upgrade_network : Environment :=
  scripted
    [ ("https://rpc.b/health", http_status 200);
      ("https://rpc.b/status", http_ok (status_body (JStr "800")));
      ("https://rest.a/health", http_status 200);
      ("https://rest.a" ++ proposals_path,
       http_ok (proposals_body
                  [ text_proposal "Community pool spend for v9 audit";
                    upgrade_proposal "v5.0" "Upgrade to v5.0" (JStr "1000") ]));
      ("https://rest.a" ++ current_plan_path, http_ok (plan_body JNull));
      ("https://rest.b/health", http_status 200);
      ("https://rest.b" ++ proposals_path, http_status 501);
      ("https://rest.b" ++ current_plan_path,
       http_ok (plan_body (JDict [("name", JStr "v3.2"); ("height", JStr "900")])));
      ("https://rest.c/health", http_status 200) ].

Definition osmosis_endpoints : endpoints_entry :=
  {| rest := [ep "https://rest.c"; ep "https://rest.a"; ep "https://rest.b"];
     rpc := [ep "https://rpc.b"] |}.

Definition osmosis_result : NetworkResult :=
  {| type := "mainnet";
     network := "osmosis";
     upgrade_found := true;
     latest_block_height := 800;
     upgrade_block_height := Some 1000;
     version := "5.0";
     rpc_server := "https://rpc.b";
     source := "active_upgrade_proposals" |}.

Definition osmosis_requests : list string :=
  [ "https://rpc.b/health"; "https://rest.c/health"; "https://rest.a/health";
    "https://rest.b/health"; "https://rpc.b/status";
    "https://rest.c" ++ proposals_path;
    "https://rest.a" ++ proposals_path;
    "https://rest.a" ++ current_plan_path ].

(** A REST node whose active proposals are two software upgrades, the
    first one named without a version number. *)
Definition vega_proposal : json :=
  upgrade_proposal "Vega" "Vega upgrade" (JStr "8695000").

Definition theta_proposal : json :=
  upgrade_proposal "v7-Theta" "" (JStr "10085397").

Definition hub_network : Environment :=
  scripted
    [ ("https://rest.hub" ++ proposals_path,
       http_ok (proposals_body [vega_proposal; theta_proposal]));
      ("https://rest.old" ++ proposals_path, http_status 501);
      ("https://rest.busy" ++ proposals_path, http_status 503);
      ("https://rest.quiet" ++ proposals_path,
       http_ok (proposals_body [text_proposal "Signal v2 roadmap"; vega_proposal]));
      ("https://rest.odd" ++ proposals_path,
       http_ok (proposals_body
                  [ upgrade_proposal "upgrade-v2.1.0-handler" "see v2" (JStr "soon") ])) ].

(** A network where nothing works: the RPC nodes are healthy but fail
    on [/status], the REST nodes are healthy but fail on both queries;
    one REST node is on the blacklist. *)
Definition failing_network : Environment :=
  scripted
    [ ("https://rpc.c/health", http_status 200);
      ("https://rpc.c/status", http_status 503);
      ("https://rpc.e/health", http_status 200);
      ("https://rest.c/health", http_status 200);
      ("https://rest.e/health", http_status 200);
      ("https://api.omniflix.nodestake.top/health", http_status 200);
      ("https://api.omniflix.nodestake.top" ++ proposals_path,
       http_ok (proposals_body [upgrade_proposal "v9" "" (JStr "5000")]));
      ("https://api.omniflix.nodestake.top" ++ current_plan_path,
       http_ok (plan_body JNull)) ].

Definition failing_endpoints : endpoints_entry :=
  {| rest := [ep "https://rest.c"; ep "https://api.omniflix.nodestake.top";
              ep "https://rest.e"];
     rpc := [ep "https://rpc.c"; ep "https://rpc.e"] |}.

(** A REST node that lists an active upgrade to v5.0 at height 1000 but
    answers the current-plan query with an error, next to a node that has
    v3.2 planned at height 900; a REST node whose current plan has no
    height and one whose current-plan query is not implemented. *)
Definition flaky_network : Environment :=
  scripted
    [ ("https://rest.f" ++ proposals_path,
       http_ok (proposals_body
                  [upgrade_proposal "v5.0" "Upgrade to v5.0" (JStr "1000")]));
      ("https://rest.f" ++ current_plan_path, http_status 500);
      ("https://rest.b" ++ proposals_path, http_status 501);
      ("https://rest.b" ++ current_plan_path,
       http_ok (plan_body (JDict [("name", JStr "v3.2"); ("height", JStr "900")])));
      ("https://rest.g" ++ current_plan_path,
       http_ok (plan_body (JDict [("name", JStr "v4-rc1"); ("height", JStr "")])));
      ("https://rest.h" ++ current_plan_path, http_status 501);
      ("https://rest.i" ++ current_plan_path,
       http_ok (plan_body (JDict [("name", JStr "Vega"); ("height", JNull)]))) ].

(** The clock of a scripted network: the time is the number of requests
    made so far. *)
Definition scripted_clock (table : list (string * http_outcome))
  : @Clock (scripted table) :=
  @Build_Clock (scripted table) nat nat
    (fun log : @World (scripted table) => (@List.length string log, log))
    (fun later earlier => (later - earlier)%nat).

Definition node_info_table : list (string * http_outcome) :=
  [ ("https://rest.a/node_info",
     http_ok (JDict [("node_info", JDict [("network", JStr "osmosis-1")]);
                     ("application_version",
                      JDict [("name", JStr "osmosis"); ("version", JStr "19.2.0")])]));
    ("https://rest.b/node_info", http_status 404);
    ("https://rest.c/node_info", http_ok (JDict [("node_info", JDict [])]));
    ("https://rest.d/node_info", http_ok (JList [])) ].

(** A registry: [osmosis] lists two REST nodes and one RPC node, [juno]
    has no [apis] member, [stride] is not there, and the document of
    [broken] is a list. *)
Definition base : string := "https://registry.example/master".

Definition osmosis_rest : json :=
  JList [JDict [("address", JStr "https://rest.a"); ("provider", JStr "A")];
         JDict [("address", JStr "https://rest.b"); ("provider", JStr "B")]].

Definition osmosis_rpc : json :=
  JList [JDict [("address", JStr "https://rpc.b"); ("provider", JStr "B")]].

Definition registry_network : Environment :=
  scripted
    [ (base ++ "/osmosis/chain.json",
       http_ok (JDict [("chain_name", JStr "osmosis");
                       ("apis", JDict [("rpc", osmosis_rpc);
                                       ("rest", osmosis_rest)])]));
      (base ++ "/juno/chain.json",
       http_ok (JDict [("chain_name", JStr "juno")]));
      (base ++ "/stride/chain.json", http_status 404);
      (base ++ "/broken/chain.json", http_ok (JList [])) ].

Definition registry_payload : payload :=
  [ ("MAINNETS", ["osmosis"; "juno"; "osmosis"; "stride"]);
    ("TESTNETS", ["juno"; "broken"; "osmosis"]) ].

Definition registry_map : list (string * json) :=
  [ ("osmosis", JDict [("rest", osmosis_rest); ("rpc", osmosis_rpc)]);
    ("juno", JDict [("rest", JList []); ("rpc", JList [])]);
    ("stride", JDict [("rest", JList []); ("rpc", JList [])]) ].

(** REST nodes that answer the proposals query with a status that is
    neither a success nor one [raise_for_status] rejects: a 304 with an
    empty list of proposals, a 300 that lists an upgrade to v9 at height
    5000 and a 600 whose body is not JSON; and a node whose first
    proposal is an upgrade named without a version, with [null] as
    height. *)
Definition http_answer (code : Z) (data : json) : http_outcome :=
  Received {| status_code := code; json_body := Decoded data |}.

Definition unscheduled_proposal : json :=
  upgrade_proposal "Vega" "Vega upgrade" JNull.

Definition redirecting_network : Environment :=
  scripted
    [ ("https://rest.j" ++ proposals_path,
       http_answer 304 (proposals_body []));
      ("https://rest.k" ++ proposals_path,
       http_answer 300
         (proposals_body [upgrade_proposal "v9" "" (JStr "5000")]));
      ("https://rest.l" ++ proposals_path, http_status 600);
      ("https://rest.m" ++ proposals_path,
       http_ok (proposals_body [unscheduled_proposal; theta_proposal])) ].

(** Servers whose answer the JSON decoder gives up on: an integer
    literal longer than [int] converts, or arrays nested too deep. *)
Definition http_undecodable (d : decoder_error) : http_outcome :=
  Received {| status_code := 200; json_body := Undecodable d |}.

Definition undecodable_table : list (string * http_outcome) :=
  [ ("https://rpc.n/health", http_status 200);
    ("https://rpc.n/status", http_undecodable LiteralTooLong);
    (base ++ "/deep/chain.json", http_undecodable NestingTooDeep);
    ("https://rest.n/node_info", http_undecodable LiteralTooLong) ].

Definition undecodable_network : Environment := scripted undecodable_table.

(** ** Vocabulary of the statements *)

(** A non-empty run of decimal digits, and the number it writes. *)
Definition all_digits (s : string) : Prop :=
  Forall (fun c => is_digit c = true) (list_ascii_of_string s).

Definition numeric (s : string) : Prop := s <> "" /\ all_digits s.

(** One to three dot-separated numeric groups. *)
Inductive version_shape : string -> Prop :=
  | shape_major a :
      numeric a -> version_shape a
  | shape_minor a b :
      numeric a -> numeric b -> version_shape (a ++ "." ++ b)
  | shape_patch a b c :
      numeric a -> numeric b -> numeric c ->
      version_shape (a ++ "." ++ b ++ "." ++ c).

(** [g] is the group captured by the first match of the pattern in [s]:
    a match starts after [pre], no match starts further to the left, and
    no match that starts at the same place is longer. *)
Definition first_match (s g : string) : Prop :=
  exists pre post,
    s = pre ++ "v" ++ g ++ post /\
    version_shape g /\
    forall pre' g' post',
      s = pre' ++ "v" ++ g' ++ post' -> version_shape g' ->
      (String.length pre <= String.length pre')%nat /\
      (String.length pre' = String.length pre ->
       (String.length g' <= String.length g)%nat).

Definition decimal (s : string) : Z :=
  fold_left (fun acc c => 10 * acc + digit_value c) (list_ascii_of_string s) 0.

(** The member [k] of an object, if [d] is an object that has it. *)
Definition member (d : json) (k : string) : option json :=
  match d with
  | JDict items => assoc k items
  | _ => None
  end.

Definition is_object (d : json) : Prop := exists items, d = JDict items.

(** [data] holds [v] at [result.sync_info.latest_block_height]. *)
Definition has_height (data v : json) : Prop :=
  exists result sync_info,
    member data "result" = Some result /\
    member result "sync_info" = Some sync_info /\
    member sync_info "latest_block_height" = Some v.

(** [data] is an object in which the height, or an object on the way to
    it, is missing. *)
Definition lacks_height (data : json) : Prop :=
  is_object data /\
  (member data "result" = None \/
   exists result,
     member data "result" = Some result /\ is_object result /\
     (member result "sync_info" = None \/
      exists sync_info,
        member result "sync_info" = Some sync_info /\ is_object sync_info /\
        member sync_info "latest_block_height" = None)).

(** An error status, for which [raise_for_status] raises. *)
Definition error_status (code : Z) : Prop := 400 <= code < 600.

(** The chain-height reader is called on the endpoints of a list one
    after the other, from world [w]: the heights it returns and the world
    it leaves. *)
Inductive heights_read `{Environment}
  : list endpoint -> World -> list Z -> World -> Prop :=
  | heights_read_nil (w : World) : heights_read [] w [] w
  | heights_read_cons e l w h w1 hs w2 :
      get_latest_block_height_rpc (address e) w = (Ok h, w1) ->
      heights_read l w1 hs w2 ->
      heights_read (e :: l) w (h :: hs) w2.

(** The test of the reconciler in the words of the specification: the
    version is non-empty, the height is known and it is strictly greater
    than the latest block height. *)
Definition usable (upgrade_version : option string) (upgrade_height : option Z)
    (height : Z) : Prop :=
  exists v h,
    upgrade_version = Some v /\ v <> "" /\
    upgrade_height = Some h /\ h > height.

(** The three variables after an acceptance. *)
Definition accepted (vars : upgrade_vars) (height : Z) : Prop :=
  exists h v src,
    vars = (Some h, v, src) /\ v <> "" /\ h > height /\
    (src = "active_upgrade_proposals" \/ src = "current_upgrade_plan").

(** A proposal the loop passes over at line 124: its content type is
    not the software-upgrade one. *)
Definition other_proposal (p : json) : Prop :=
  exists content type,
    dict_get p "content" (JDict []) = Ok content /\
    dict_get content "@type" JNull = Ok type /\
    type <> JStr SoftwareUpgradeProposal.

(** A software-upgrade proposal with the plan name, the description and
    the plan height the loop reads from it. *)
Definition upgrade_fields (p : json) (name description : string)
    (height_field : json) : Prop :=
  exists content plan,
    dict_get p "content" (JDict []) = Ok content /\
    dict_get content "@type" JNull = Ok (JStr SoftwareUpgradeProposal) /\
    dict_get content "plan" (JDict []) = Ok plan /\
    dict_get plan "name" (JStr "") = Ok (JStr name) /\
    dict_get content "description" (JStr "") = Ok (JStr description) /\
    dict_get plan "height" (JInt 0) = Ok height_field.

(** The height read from a field: its integer value, or 0 when [int]
    raises [ValueError]. *)
Definition height_read (height_field : json) (h : Z) : Prop :=
  py_int height_field = Ok h \/
  (py_int height_field = Raise ValueError /\ h = 0).

(** A proposal the loop examines and leaves: another kind of proposal,
    or a software upgrade in which no version is found and whose height
    line 146 reads, as the number [int] returns or as 0. *)
Definition passed_over (p : json) : Prop :=
  other_proposal p \/
  exists name description height_field h,
    upgrade_fields p name description height_field /\
    select_version (search name) (search description) = None /\
    height_read height_field h.

(** The health check is run on the endpoints of a list one after the
    other, from world [w]: the verdicts and the world it leaves. *)
Inductive probes_read `{Environment}
  : list endpoint -> World -> list bool -> World -> Prop :=
  | probes_read_nil (w : World) : probes_read [] w [] w
  | probes_read_cons e l w b w1 bs w2 :
      is_endpoint_healthy (address e) w = (Ok b, w1) ->
      probes_read l w1 bs w2 ->
      probes_read (e :: l) w (b :: bs) w2.

(** The endpoints of [l] whose verdict in [verdicts] is [True], in the
    order of [l]. *)
Definition marked_healthy (l : list endpoint) (verdicts : list bool)
  : list endpoint :=
  map fst (filter snd (combine l verdicts)).

(** What the two upgrade readers may return: no upgrade, or a version
    of the shape of the pattern together with a height. *)
Definition well_paired (answer : option string * option Z) : Prop :=
  answer = (None, None) \/
  exists v h, answer = (Some v, Some h) /\ version_shape v.

(** Lines 165-175 of [fetch_current_upgrade_plan]: what is returned for
    the decoded body [data]. *)
Definition read_plan (data : json) : result (option string * option Z) :=
  let? plan := dict_get data "plan" (JDict []) in
  if truthy plan then
    let? name := dict_get plan "name" (JStr "") in
    let? version_match := py_search name in
    match version_match with
    | Some version =>
        let? height_field := dict_get plan "height" (JInt 0) in
        let? height := int_or_zero height_field in
        Ok (Some version, Some height)
    | None => Ok (None, None)
    end
  else Ok (None, None).

(** [fetch_endpoints] is called on the names of a list one after the
    other, from world [w]: the pairs of lists it returns and the world it
    leaves. *)
Inductive endpoints_fetched `{Environment} (base_url : string)
  : list string -> World -> list (json * json) -> World -> Prop :=
  | endpoints_fetched_nil (w : World) : endpoints_fetched base_url [] w [] w
  | endpoints_fetched_cons name names w lists w1 fetched w2 :
      fetch_endpoints name base_url w = (Ok lists, w1) ->
      endpoints_fetched base_url names w1 fetched w2 ->
      endpoints_fetched base_url (name :: names) w (lists :: fetched) w2.

(** [d.get(k, default)] on a value known to be an object. *)
Definition member_or (d : json) (k : string) (default : json) : json :=
  match member d k with
  | Some v => v
  | None => default
  end.

(** The lists fetched for [name] the last time it came up in [names]. *)
Fixpoint last_fetched (name : string) (names : list string)
    (fetched : list (json * json)) : option (json * json) :=
  match names, fetched with
  | n :: names', lists :: fetched' =>
      match last_fetched name names' fetched' with
      | Some later => Some later
      | None => if String.eqb name n then Some lists else None
      end
  | _, _ => None
  end.

(** The names [fetch_all_endpoints] goes through. *)
Definition selected_networks (network_type : string) (request_data : payload)
  : list string :=
  if String.eqb network_type "mainnet"
  then payload_get request_data "MAINNETS"
  else payload_get request_data "TESTNETS".

(** * Properties *)

(** ** The monad *)

Section MonadFacts.
Context `{Environment}.

Lemma bind_ok {A B : Type} (m : M A) (k : A -> M B) w a w' :
  m w = (Ok a, w') -> bind m k w = k a w'.
Proof. unfold bind; intros ->; reflexivity. Qed.

Lemma bind_raise {A B : Type} (m : M A) (k : A -> M B) w e w' :
  m w = (Raise e, w') -> bind m k w = (Raise e, w').
Proof. unfold bind; intros ->; reflexivity. Qed.

Lemma bind_inv_ok {A B : Type} (m : M A) (k : A -> M B) w b w2 :
  bind m k w = (Ok b, w2) ->
  exists a w1, m w = (Ok a, w1) /\ k a w1 = (Ok b, w2).
Proof.
  unfold bind; destruct (m w) as [[a | e] w1]; intros E.
  - exists a, w1; split; [reflexivity | exact E].
  - discriminate E.
Qed.

(** A handler that raises what it caught changes nothing. *)
Lemma try_except_reraise {A : Type} (body : M A) caught w :
  try_except body caught (fun e => raise e) w = body w.
Proof.
  unfold try_except, raise.
  destruct (body w) as [[a | e] w']; [reflexivity |].
  destruct (caught e); reflexivity.
Qed.

End MonadFacts.

(** ** The final sort *)

Lemma filter_all_true {A : Type} (f : A -> bool) (l : list A) :
  Forall (fun y => f y = true) (filter f l).
Proof.
  apply Forall_forall; intros y Hy.
  apply filter_In in Hy; tauto.
Qed.

Section Sorting.
Context {A : Type} (key : A -> bool).

Let rejected (x : A) : bool := negb (key x).

Lemma insert_by_low x l :
  key x = false -> insert_by key x l = x :: l.
Proof.
  intros Hx; destruct l as [| y l]; simpl; [reflexivity |].
  rewrite Hx; reflexivity.
Qed.

Lemma insert_by_high x low high :
  key x = true ->
  Forall (fun y => key y = false) low ->
  Forall (fun y => key y = true) high ->
  insert_by key x (low ++ high)%list = (low ++ x :: high)%list.
Proof.
  intros Hx Hlow Hhigh.
  induction Hlow as [| y low Hy _ IH]; simpl.
  - destruct Hhigh as [| z high Hz _]; simpl; [reflexivity |].
    rewrite Hx, Hz; reflexivity.
  - rewrite Hx, Hy; simpl. f_equal. exact IH.
Qed.

Lemma stable_sort_partition l :
  stable_sort key l = (filter rejected l ++ filter key l)%list.
Proof.
  induction l as [| x l IH]; simpl; [reflexivity |].
  rewrite IH; unfold rejected at 2.
  destruct (key x) eqn:Hx; simpl.
  - apply insert_by_high; [exact Hx | | apply filter_all_true].
    eapply Forall_impl; [| apply (filter_all_true rejected)].
    unfold rejected; intros y Hy; destruct (key y); [discriminate | reflexivity].
  - apply insert_by_low; exact Hx.
Qed.

Lemma sorted_reverse_partition l :
  sorted l key true = (filter key l ++ filter rejected l)%list.
Proof.
  unfold sorted.
  rewrite stable_sort_partition, rev_app_distr, !filter_rev, !rev_involutive.
  reflexivity.
Qed.

End Sorting.

(** C8.  The final sort of the batch endpoint is a stable partition: the
    sorted list is the records with [upgrade_found = true], in the order
    they had before the sort, followed by the records with
    [upgrade_found = false], in the order they had before the sort. *)
Theorem sort_results_stable_partition (results : list NetworkResult) :
  exists found others,
    sort_results results = (found ++ others)%list /\
    Forall (fun r => upgrade_found r = true) found /\
    Forall (fun r => upgrade_found r = false) others /\
    found = filter upgrade_found results /\
    others = filter (fun r => negb (upgrade_found r)) results.
Proof.
  exists (filter upgrade_found results),
         (filter (fun r => negb (upgrade_found r)) results).
  repeat split.
  - apply sorted_reverse_partition.
  - apply filter_all_true.
  - eapply Forall_impl;
      [| apply (filter_all_true (fun r => negb (upgrade_found r)))].
    intros r Hr; simpl in Hr; destruct (upgrade_found r);
      [discriminate | reflexivity].
Qed.

(** ** The prober *)

Section Prober.
Context `{Environment}.

Lemma is_endpoint_healthy_total (endpoint : string) (w : World) :
  exists b w', is_endpoint_healthy endpoint w = (Ok b, w').
Proof.
  unfold is_endpoint_healthy, try_except, bind, requests_get, ret.
  destruct (http_get (endpoint ++ "/health") w) as [[k | r] w'];
    simpl; eauto.
Qed.

Lemma executor_map_probe (l : list endpoint) (w : World) :
  exists probed w',
    executor_map
      (fun e => is_healthy <- is_endpoint_healthy (address e) ;;
                ret (e, is_healthy)) l w = (Ok probed, w') /\
    map fst probed = l.
Proof.
  revert w; induction l as [| e l IH]; intros w; simpl.
  - exists [], w; split; reflexivity.
  - destruct (is_endpoint_healthy_total (address e) w) as (b & w1 & Hb).
    destruct (IH w1) as (probed & w2 & Hmap & Hfst).
    exists ((e, b) :: probed), w2; split.
    + erewrite bind_ok; [| erewrite bind_ok; [| exact Hb]; reflexivity].
      erewrite bind_ok; [| exact Hmap]. reflexivity.
    + simpl; rewrite Hfst; reflexivity.
Qed.

Lemma capped_selection_sound (probed : list (endpoint * bool)) :
  let out := firstn 5 (map fst (filter snd probed)) in
  (List.length out <= 5)%nat /\ incl out (map fst probed).
Proof.
  split.
  - apply firstn_le_length.
  - intros e He.
    assert (Hin : In e (map fst (filter snd probed))).
    { rewrite <- (firstn_skipn 5). apply in_or_app; left; exact He. }
    clear He; rename Hin into He.
    apply in_map_iff in He; destruct He as ((e', b) & <- & Hin).
    apply filter_In in Hin; destruct Hin as [Hin _].
    apply in_map_iff; exists (e', b); split; [reflexivity | exact Hin].
Qed.

(** C9.  Whatever the health probes answer, each of the two prober
    functions returns (it never raises), and what it returns has at
    most 5 elements, every one of them an element of the input list. *)
Theorem prober_output_capped_subset (endpoints : list endpoint) (w : World) :
  (exists out w',
      get_healthy_rpc_endpoints endpoints w = (Ok out, w') /\
      (List.length out <= 5)%nat /\ incl out endpoints) /\
  (exists out w',
      get_healthy_rest_endpoints endpoints w = (Ok out, w') /\
      (List.length out <= 5)%nat /\ incl out endpoints).
Proof.
  destruct (executor_map_probe endpoints w) as (probed & w' & Hmap & Hfst).
  destruct (capped_selection_sound probed) as [Hlen Hincl].
  rewrite Hfst in Hincl.
  split; exists (firstn 5 (map fst (filter snd probed))), w';
    (split; [| split; assumption]).
  - unfold get_healthy_rpc_endpoints.
    erewrite bind_ok; [| exact Hmap]; reflexivity.
  - unfold get_healthy_rest_endpoints.
    erewrite bind_ok; [| exact Hmap]; reflexivity.
Qed.

End Prober.

(** ** The chain-height reader *)

Lemma digit_not_space (c : ascii) : is_digit c = true -> is_space c = false.
Proof.
  unfold is_digit, is_space; cbv zeta; intros Hd.
  apply andb_true_iff in Hd; destruct Hd as [Hlo Hhi].
  apply Nat.leb_le in Hlo, Hhi.
  assert (H13 : (nat_of_ascii c <=? 13)%nat = false)
    by (apply Nat.leb_gt; lia).
  assert (H32 : (nat_of_ascii c =? 32)%nat = false)
    by (apply Nat.eqb_neq; lia).
  assert (H133 : (nat_of_ascii c =? 133)%nat = false)
    by (apply Nat.eqb_neq; lia).
  assert (H160 : (nat_of_ascii c =? 160)%nat = false)
    by (apply Nat.eqb_neq; lia).
  rewrite H13, H32, H133, H160, andb_false_r; reflexivity.
Qed.

Lemma digit_not_sign (c : ascii) :
  is_digit c = true ->
  Ascii.eqb c "-"%char = false /\ Ascii.eqb c "+"%char = false.
Proof.
  intros Hd; split; apply Ascii.eqb_neq; intros ->; discriminate Hd.
Qed.

Lemma digit_value_nonneg (c : ascii) : is_digit c = true -> 0 <= digit_value c.
Proof.
  unfold is_digit, digit_value; cbv zeta; intros Hd.
  apply andb_true_iff in Hd; destruct Hd as [Hlo _].
  apply Nat.leb_le in Hlo; lia.
Qed.

Lemma lstrip_digit_head (c : ascii) (cs : list ascii) :
  is_digit c = true -> lstrip (c :: cs) = c :: cs.
Proof. intros Hd; simpl; rewrite (digit_not_space c Hd); reflexivity. Qed.

Lemma strip_digits (cs : list ascii) :
  Forall (fun c => is_digit c = true) cs -> strip cs = cs.
Proof.
  intros Hall; unfold strip.
  assert (Hl : forall l, Forall (fun c => is_digit c = true) l -> lstrip l = l).
  { intros l Hf; destruct Hf as [| c l Hc _];
      [reflexivity | apply lstrip_digit_head; exact Hc]. }
  rewrite (Hl cs Hall), Hl, rev_involutive; [reflexivity |].
  apply Forall_rev; exact Hall.
Qed.

Lemma digits_value_digits (cs : list ascii) :
  Forall (fun c => is_digit c = true) cs ->
  forall acc after_digit,
    cs <> [] \/ after_digit = true ->
    digits_value cs acc after_digit =
      Some (fold_left (fun a c => 10 * a + digit_value c) cs acc).
Proof.
  induction 1 as [| c cs Hc _ IH]; intros acc after_digit Hne;
    cbn [digits_value fold_left].
  - destruct Hne as [Hne | ->]; [congruence | reflexivity].
  - rewrite Hc. apply IH; right; reflexivity.
Qed.

Lemma fold_decimal_nonneg (cs : list ascii) :
  Forall (fun c => is_digit c = true) cs ->
  forall acc, 0 <= acc ->
    0 <= fold_left (fun a c => 10 * a + digit_value c) cs acc.
Proof.
  induction 1 as [| c cs Hc _ IH]; intros acc Hacc; cbn [fold_left];
    [exact Hacc |].
  apply IH. pose proof (digit_value_nonneg c Hc); lia.
Qed.

Lemma length_list_ascii (s : string) :
  List.length (list_ascii_of_string s) = String.length s.
Proof. induction s as [| c s IH]; simpl; [| rewrite IH]; reflexivity. Qed.

Lemma count_digits_all (cs : list ascii) :
  Forall (fun c => is_digit c = true) cs ->
  List.length (filter is_digit cs) = List.length cs.
Proof.
  induction 1 as [| c cs Hc _ IH]; simpl; [reflexivity |].
  rewrite Hc; simpl; rewrite IH; reflexivity.
Qed.

Lemma limited_digits_value_digits (cs : list ascii) :
  Forall (fun c => is_digit c = true) cs -> cs <> [] ->
  Z.of_nat (List.length cs) <= int_max_str_digits ->
  limited_digits_value cs =
    Some (fold_left (fun a c => 10 * a + digit_value c) cs 0).
Proof.
  intros Hall Hne Hlen. unfold limited_digits_value.
  rewrite (count_digits_all cs Hall).
  destruct (Z.ltb_spec int_max_str_digits (Z.of_nat (List.length cs)));
    [lia |].
  apply digits_value_digits; [exact Hall | left; exact Hne].
Qed.

(** [int] reads a run of digits that is within the limit as the number
    it writes. *)
Lemma int_of_string_numeric (s : string) :
  numeric s ->
  Z.of_nat (String.length s) <= int_max_str_digits ->
  int_of_string s = Some (decimal s) /\ 0 <= decimal s.
Proof.
  intros [Hne Hall] Hlen; unfold all_digits in Hall.
  unfold int_of_string, decimal.
  rewrite (strip_digits _ Hall).
  split; [| apply fold_decimal_nonneg; [exact Hall | lia]].
  rewrite <- length_list_ascii in Hlen.
  destruct (list_ascii_of_string s) as [| c cs] eqn:Hcs.
  - destruct s; [congruence | discriminate Hcs].
  - pose proof (Forall_inv Hall) as Hc; simpl in Hc.
    destruct (digit_not_sign c Hc) as [-> ->].
    apply limited_digits_value_digits; [exact Hall | discriminate | exact Hlen].
Qed.

(** [int] refuses a run of digits that is over the limit. *)
Lemma int_of_string_over_limit (s : string) :
  all_digits s ->
  int_max_str_digits < Z.of_nat (String.length s) ->
  int_of_string s = None.
Proof.
  intros Hall Hlen; unfold all_digits in Hall. unfold int_of_string.
  rewrite (strip_digits _ Hall).
  rewrite <- length_list_ascii in Hlen.
  assert (Hover : limited_digits_value (list_ascii_of_string s) = None).
  { unfold limited_digits_value. rewrite (count_digits_all _ Hall).
    destruct (Z.ltb_spec int_max_str_digits
                (Z.of_nat (List.length (list_ascii_of_string s))));
      [reflexivity | lia]. }
  destruct (list_ascii_of_string s) as [| c cs] eqn:Hcs; [exact Hover |].
  pose proof (Forall_inv Hall) as Hc; simpl in Hc.
  destruct (digit_not_sign c Hc) as [-> ->]. exact Hover.
Qed.

Lemma status_height_present (data v : json) :
  has_height data v -> status_height data = py_int v.
Proof.
  intros (result & sync_info & Hr & Hs & Hv); unfold status_height.
  destruct data as [| | | | | | items]; try discriminate Hr; simpl in Hr.
  simpl; rewrite Hr; simpl.
  destruct result as [| | | | | | ritems]; try discriminate Hs; simpl in Hs.
  simpl; rewrite Hs; simpl.
  destruct sync_info as [| | | | | | sitems]; try discriminate Hv; simpl in Hv.
  simpl; rewrite Hv; reflexivity.
Qed.

Lemma status_height_absent (data : json) :
  lacks_height data -> status_height data = Ok 0.
Proof.
  intros [[items ->] Hcases]; unfold status_height; simpl.
  destruct Hcases as [Hr | (result & Hr & [ritems ->] & Hcases)];
    simpl in Hr; rewrite Hr; [reflexivity |]; simpl.
  destruct Hcases as [Hs | (sync_info & Hs & [sitems ->] & Hv)];
    simpl in Hs; rewrite Hs; [reflexivity |]; simpl.
  simpl in Hv; rewrite Hv; reflexivity.
Qed.

Lemma dict_get_raises (d : json) (k : string) (default : json) (e : exn) :
  dict_get d k default = Raise e -> e = AttributeError.
Proof.
  destruct d; simpl; try (intros E; inversion E; reflexivity).
  destruct (assoc k items); discriminate.
Qed.

Lemma py_int_raises (v : json) (e : exn) :
  py_int v = Raise e -> is_RequestException e = false.
Proof.
  destruct v as [| b | n | [q | neg |] | s | l | items]; simpl;
    try (intros E; inversion E; reflexivity).
  destruct (int_of_string s); intros E; inversion E; reflexivity.
Qed.

Lemma status_height_not_request_exception (data : json) (e : exn) :
  status_height data = Raise e -> is_RequestException e = false.
Proof.
  unfold status_height, rbind.
  destruct (dict_get data _ _) as [result | e1] eqn:E1.
  2:{ intros E; inversion E; subst.
      rewrite (dict_get_raises _ _ _ _ E1); reflexivity. }
  destruct (dict_get result _ _) as [sync_info | e2] eqn:E2.
  2:{ intros E; inversion E; subst.
      rewrite (dict_get_raises _ _ _ _ E2); reflexivity. }
  destruct (dict_get sync_info _ _) as [height | e3] eqn:E3.
  2:{ intros E; inversion E; subst.
      rewrite (dict_get_raises _ _ _ _ E3); reflexivity. }
  apply py_int_raises.
Qed.

Section ChainHeightReader.
Context `{Environment}.

Lemma reader_failed rpc_url w k w' :
  http_get (rpc_url ++ "/status") w = (Failed k, w') ->
  get_latest_block_height_rpc rpc_url w = (Ok (-1), w').
Proof.
  intros Hget.
  unfold get_latest_block_height_rpc, try_except, bind, requests_get.
  rewrite Hget; reflexivity.
Qed.

Lemma reader_received rpc_url w r w' :
  http_get (rpc_url ++ "/status") w = (Received r, w') ->
  get_latest_block_height_rpc rpc_url w =
    if (400 <=? status_code r) && (status_code r <? 600) then (Ok (-1), w')
    else
      match json_body r with
      | NotJSON => (Ok (-1), w')
      | Decoded data =>
          match status_height data with
          | Ok h => (Ok h, w')
          | Raise e => (Raise e, w')
          end
      | Undecodable d => (Raise (decoder_exn d), w')
      end.
Proof.
  intros Hget.
  unfold get_latest_block_height_rpc, try_except, bind, requests_get,
    raise_for_status, response_json.
  rewrite Hget.
  destruct ((400 <=? status_code r) && (status_code r <? 600));
    [reflexivity |].
  unfold ret; destruct (json_body r) as [| data | d]; [reflexivity | |].
  - unfold lift; destruct (status_height data) as [h | e] eqn:Hh;
      [reflexivity |].
    rewrite (status_height_not_request_exception _ _ Hh); reflexivity.
  - destruct d; reflexivity.
Qed.

End ChainHeightReader.

Lemma last_nonempty_default {A : Type} (x : A) (l : list A) (d d' : A) :
  last (x :: l) d = last (x :: l) d'.
Proof.
  revert x; induction l as [| y l IH]; intros x; [reflexivity |].
  change (last (y :: l) d = last (y :: l) d'); apply IH.
Qed.

Section ChainHeightReaderOutcomes.
Context `{Environment}.

(** C2, as amended.  The reader returns -1, and does not raise, when
    the request fails in transport (timeout, network error), when the
    status is an error status, and when the body is not JSON.  It
    returns 0 when the body is an object in which the height, or an
    object on the way to it, is missing.  When the height is there as an
    integer it returns that integer; when it is there as a run of
    decimal digits no longer than the limit of [int], 4300 digits, it
    returns the number they write, which is not negative; on a longer
    run of digits [int] raises [ValueError], which the reader does not
    catch. *)
Theorem get_latest_block_height_rpc_outcomes (rpc_url : string) (w : World) :
  (forall k w',
      http_get (rpc_url ++ "/status") w = (Failed k, w') ->
      get_latest_block_height_rpc rpc_url w = (Ok (-1), w')) /\
  (forall r w',
      http_get (rpc_url ++ "/status") w = (Received r, w') ->
      (error_status (status_code r) ->
       get_latest_block_height_rpc rpc_url w = (Ok (-1), w')) /\
      (~ error_status (status_code r) -> json_body r = NotJSON ->
       get_latest_block_height_rpc rpc_url w = (Ok (-1), w')) /\
      (forall data,
          ~ error_status (status_code r) -> json_body r = Decoded data ->
          (lacks_height data ->
           get_latest_block_height_rpc rpc_url w = (Ok 0, w')) /\
          (forall n, has_height data (JInt n) ->
           get_latest_block_height_rpc rpc_url w = (Ok n, w')) /\
          (forall s, has_height data (JStr s) -> numeric s ->
           Z.of_nat (String.length s) <= int_max_str_digits ->
           get_latest_block_height_rpc rpc_url w = (Ok (decimal s), w') /\
           0 <= decimal s) /\
          (forall s, has_height data (JStr s) -> numeric s ->
           int_max_str_digits < Z.of_nat (String.length s) ->
           get_latest_block_height_rpc rpc_url w = (Raise ValueError, w')))).
Proof.
  split; [intros k w'; apply reader_failed |].
  intros r w' Hget. rewrite (reader_received _ _ _ _ Hget).
  unfold error_status.
  destruct ((400 <=? status_code r) && (status_code r <? 600)) eqn:Hst.
  - apply andb_true_iff in Hst; destruct Hst as [Hlo Hhi].
    apply Z.leb_le in Hlo; apply Z.ltb_lt in Hhi.
    split; [reflexivity |].
    split; [intros Hno; contradiction Hno; lia |].
    intros data Hno; contradiction Hno; lia.
  - assert (Hno : ~ 400 <= status_code r < 600).
    { intros [Hlo Hhi]. apply Z.leb_le in Hlo; apply Z.ltb_lt in Hhi.
      rewrite Hlo, Hhi in Hst; discriminate Hst. }
    split; [intros Hyes; contradiction |].
    split; [intros _ ->; reflexivity |].
    intros data _ ->.
    split; [intros Hlack; rewrite (status_height_absent _ Hlack); reflexivity |].
    split; [| split].
    + intros n Hn; rewrite (status_height_present _ _ Hn); reflexivity.
    + intros s Hs Hnum Hlen; rewrite (status_height_present _ _ Hs).
      cbn [py_int].
      destruct (int_of_string_numeric s Hnum Hlen) as [-> Hpos].
      split; [reflexivity | exact Hpos].
    + intros s Hs [_ Hall] Hlen; rewrite (status_height_present _ _ Hs).
      cbn [py_int].
      rewrite (int_of_string_over_limit s Hall Hlen); reflexivity.
Qed.

(** The scan leaves [height] as the reader returned it last. *)
Lemma rpc_scan_no_positive (l : list endpoint) (w : World) (hs : list Z)
    (w1 : World) :
  heights_read l w hs w1 ->
  Forall (fun h => h <= 0) hs ->
  forall height, rpc_scan l height w = (Ok (last hs height, ""), w1).
Proof.
  induction 1 as [w | e l w h w1 hs w2 Hread _ IH]; intros Hall height.
  - reflexivity.
  - cbn [rpc_scan]. erewrite bind_ok; [| exact Hread].
    pose proof (Forall_inv Hall) as Hh; simpl in Hh.
    destruct (h >? 0) eqn:Hpos; [apply Z.gtb_lt in Hpos; lia |].
    rewrite (IH (Forall_inv_tail Hall) h).
    destruct hs as [| z hs]; [reflexivity |].
    rewrite (last_nonempty_default z hs h height); reflexivity.
Qed.

Lemma rpc_scan_first_positive (before : list endpoint) (w : World)
    (hs : list Z) (w1 : World) :
  heights_read before w hs w1 ->
  Forall (fun h => h <= 0) hs ->
  forall e after h w2 height,
    get_latest_block_height_rpc (address e) w1 = (Ok h, w2) ->
    h > 0 ->
    rpc_scan (before ++ e :: after)%list height w = (Ok (h, address e), w2).
Proof.
  induction 1 as [w | e0 l w h0 w1 hs w2 Hread _ IH];
    intros Hall e after h w3 height Hlast Hpos.
  - cbn [app rpc_scan]. erewrite bind_ok; [| exact Hlast].
    apply Z.gt_lt, Z.gtb_lt in Hpos; rewrite Hpos; reflexivity.
  - cbn [app rpc_scan]. erewrite bind_ok; [| exact Hread].
    pose proof (Forall_inv Hall) as Hh; simpl in Hh.
    destruct (h0 >? 0) eqn:Hpos0; [apply Z.gtb_lt in Hpos0; lia |].
    apply IH; [exact (Forall_inv_tail Hall) | exact Hlast | exact Hpos].
Qed.

(** C1, as amended.  Let the reader return heights that are not
    strictly positive (such as -1 and 0) on the endpoints of [before],
    called in order.  If the next endpoint returns a strictly positive
    height, the scan stops there: it yields that height with that
    endpoint's address as [rpc_server], in the world left by that call,
    whatever endpoints follow.  If [before] is the whole list, the scan
    yields the empty string as [rpc_server] and, as
    [latest_block_height], the height the last endpoint returned: the
    initial -1 only when the list is empty. *)
Theorem rpc_scan_outcome (before : list endpoint) (w : World)
    (heights : list Z) (w1 : World) :
  heights_read before w heights w1 ->
  Forall (fun h => h <= 0) heights ->
  (forall e after h w2,
      get_latest_block_height_rpc (address e) w1 = (Ok h, w2) ->
      h > 0 ->
      rpc_scan (before ++ e :: after)%list (-1) w = (Ok (h, address e), w2)) /\
  rpc_scan before (-1) w = (Ok (last heights (-1), ""), w1).
Proof.
  intros Hread Hall; split.
  - intros e after h w2; apply (rpc_scan_first_positive _ _ _ _ Hread Hall).
  - apply (rpc_scan_no_positive _ _ _ _ Hread Hall).
Qed.

End ChainHeightReaderOutcomes.

Lemma numeric_800 : numeric "800".
Proof. split; [discriminate | repeat constructor]. Defined.

Lemma get_latest_block_height_rpc_outcomes_witness :
  @get_latest_block_height_rpc rpc_network "https://rpc.b" [] =
    (Ok 800, ["https://rpc.b/status"]) /\
  @get_latest_block_height_rpc rpc_network "https://rpc.c" [] =
    (Ok (-1), ["https://rpc.c/status"]) /\
  @get_latest_block_height_rpc rpc_network "https://rpc.e" [] =
    (Ok (-1), ["https://rpc.e/status"]) /\
  @get_latest_block_height_rpc rpc_network "https://rpc.a" [] =
    (Ok 0, ["https://rpc.a/status"]).
Proof.
  pose proof (@get_latest_block_height_rpc_outcomes rpc_network) as T.
  assert (Hok : ~ error_status 200) by (unfold error_status; lia).
  split; [| split; [| split]].
  - destruct (T "https://rpc.b" []) as [_ Treceived].
    destruct (Treceived _ _ eq_refl) as (_ & _ & Tdata).
    destruct (Tdata (status_body (JStr "800")) Hok eq_refl)
      as (_ & _ & Tdigits & _).
    refine (proj1 (Tdigits "800" _ numeric_800 _)).
    + exists (JDict [("sync_info", JDict [("latest_block_height", JStr "800")])]),
             (JDict [("latest_block_height", JStr "800")]).
      split; [reflexivity | split; reflexivity].
    + unfold int_max_str_digits; simpl; lia.
  - destruct (T "https://rpc.c" []) as [_ Treceived].
    destruct (Treceived _ _ eq_refl) as (Terror & _).
    apply Terror; unfold error_status; simpl; lia.
  - destruct (T "https://rpc.e" []) as [Tfailed _].
    exact (Tfailed ConnectionError _ eq_refl).
  - destruct (T "https://rpc.a" []) as [_ Treceived].
    destruct (Treceived _ _ eq_refl) as (_ & _ & Tdata).
    destruct (Tdata rpc_error_body Hok eq_refl) as (Tlacks & _).
    apply Tlacks.
    split; [eexists; reflexivity | left; reflexivity].
Defined.

(** C2, counterexample.  The node answers 200 with a JSON-RPC error
    object: the height is missing, and the reader returns 0, not -1. *)
Lemma get_latest_block_height_rpc_missing_field :
  @http_get rpc_network "https://rpc.a/status" [] =
    (http_ok rpc_error_body, ["https://rpc.a/status"]) /\
  lacks_height rpc_error_body /\
  @get_latest_block_height_rpc rpc_network "https://rpc.a" [] =
    (Ok 0, ["https://rpc.a/status"]) /\
  @get_latest_block_height_rpc rpc_network "https://rpc.a" [] <>
    (Ok (-1), ["https://rpc.a/status"]).
Proof.
  split; [reflexivity |].
  split; [split; [eexists; reflexivity | left; reflexivity] |].
  split; [reflexivity | discriminate].
Qed.

Lemma heights_read_c_a :
  @heights_read rpc_network [ep "https://rpc.c"; ep "https://rpc.a"] []
    [-1; 0] ["https://rpc.c/status"; "https://rpc.a/status"].
Proof.
  eapply heights_read_cons; [reflexivity |].
  eapply heights_read_cons; [reflexivity |].
  apply heights_read_nil.
Defined.

Lemma rpc_scan_outcome_witness :
  @rpc_scan rpc_network
    [ep "https://rpc.c"; ep "https://rpc.a"; ep "https://rpc.b";
     ep "https://rpc.d"] (-1) [] =
    (Ok (800, "https://rpc.b"),
     ["https://rpc.c/status"; "https://rpc.a/status"; "https://rpc.b/status"]) /\
  @rpc_scan rpc_network [ep "https://rpc.c"; ep "https://rpc.a"] (-1) [] =
    (Ok (0, ""), ["https://rpc.c/status"; "https://rpc.a/status"]).
Proof.
  assert (Hall : Forall (fun h => h <= 0) [-1; 0])
    by (repeat constructor; lia).
  destruct (@rpc_scan_outcome rpc_network _ _ _ _ heights_read_c_a Hall)
    as [Tstop Tnone].
  split.
  - apply (Tstop (ep "https://rpc.b") [ep "https://rpc.d"] 800);
      [reflexivity | lia].
  - exact Tnone.
Defined.

(** C1, counterexample.  The only healthy RPC endpoint answers [/status]
    without a height, so the reader returns 0 for every endpoint of the
    list; the record emitted has [latest_block_height = 0], not -1. *)
Lemma rpc_scan_all_zero_emits_zero :
  (forall log, @get_latest_block_height_rpc rpc_network "https://rpc.a" log =
               (Ok 0, (log ++ ["https://rpc.a/status"])%list)) /\
  exists r w',
    @fetch_data_for_network rpc_network "osmosis"
      {| rest := []; rpc := [ep "https://rpc.a"] |} "mainnet" [] = (Ok r, w') /\
    latest_block_height r = 0 /\
    latest_block_height r <> -1 /\
    rpc_server r = "".
Proof.
  split; [intros log; reflexivity |].
  eexists; eexists; split; [reflexivity |].
  simpl; split; [reflexivity | split; [discriminate | reflexivity]].
Qed.

(** ** The reconciler *)

Lemma version_truthy_iff (upgrade_version : option string) :
  version_truthy upgrade_version = true <->
  exists v, upgrade_version = Some v /\ v <> "".
Proof.
  destruct upgrade_version as [v |]; simpl.
  - rewrite negb_true_iff, String.eqb_neq. split.
    + intros Hv; exists v; split; [reflexivity | exact Hv].
    + intros (v' & [= <-] & Hv); exact Hv.
  - split; [discriminate | intros (v & [=] & _)].
Qed.

Lemma acceptable_iff upgrade_version upgrade_height height :
  acceptable upgrade_version upgrade_height height = true <->
  usable upgrade_version upgrade_height height.
Proof.
  unfold acceptable, usable.
  rewrite andb_true_iff, version_truthy_iff. split.
  - intros [(v & -> & Hv) Hh].
    destruct upgrade_height as [h |]; [| discriminate Hh].
    apply Z.gtb_lt in Hh.
    exists v, h; repeat split; [exact Hv | lia].
  - intros (v & h & -> & Hv & -> & Hh). split.
    + exists v; split; [reflexivity | exact Hv].
    + apply Z.gtb_lt; lia.
Qed.

Lemma acceptable_false_iff upgrade_version upgrade_height height :
  acceptable upgrade_version upgrade_height height = false <->
  ~ usable upgrade_version upgrade_height height.
Proof.
  rewrite <- acceptable_iff.
  destruct (acceptable upgrade_version upgrade_height height);
    split; congruence.
Qed.

Lemma choose_break active current height vars :
  choose active current height = Break vars -> accepted vars height.
Proof.
  destruct active as [av ah], current as [cv ch]; unfold choose.
  destruct (acceptable av ah height) eqn:Ha.
  - apply acceptable_iff in Ha; destruct Ha as (v & h & -> & Hv & -> & Hh).
    intros [= <-]. exists h, v, "active_upgrade_proposals"; auto.
  - destruct (acceptable cv ch height) eqn:Hc; [| discriminate].
    apply acceptable_iff in Hc; destruct Hc as (v & h & -> & Hv & -> & Hh).
    intros [= <-]. exists h, v, "current_upgrade_plan"; auto.
Qed.

Section Reconciler.
Context `{Environment}.

Lemma rest_iteration_queried total height index e w active current w' :
  blacklisted (address e) = false ->
  query_both (address e) w = (Ok (active, current), w') ->
  rest_iteration total height index e w =
    (Ok (choose active current height), w').
Proof.
  intros Hb Hq; unfold rest_iteration; rewrite Hb, Hq; reflexivity.
Qed.

(** An iteration never raises, and when it leaves the loop the three
    variables are either untouched or hold an accepted upgrade. *)
Lemma rest_iteration_total total height index e w :
  exists outcome w',
    rest_iteration total height index e w = (Ok outcome, w') /\
    forall vars, outcome = Break vars ->
                 vars = no_upgrade \/ accepted vars height.
Proof.
  unfold rest_iteration.
  destruct (blacklisted (address e)).
  - exists Continue, w; split; [reflexivity | discriminate].
  - destruct (query_both (address e) w) as [[[active current] | x] w'].
    + exists (choose active current height), w'; split; [reflexivity |].
      intros vars Hv; right; exact (choose_break _ _ _ _ Hv).
    + destruct (index + 1 <? total)%nat.
      * exists Continue, w'; split; [reflexivity | discriminate].
      * exists (Break no_upgrade), w'; split; [reflexivity |].
        intros vars [= <-]; left; reflexivity.
Qed.

Lemma rest_loop_total total height remaining :
  forall index w,
  exists vars w',
    rest_loop total height index remaining w = (Ok vars, w') /\
    (vars = no_upgrade \/ accepted vars height).
Proof.
  induction remaining as [| e remaining IH]; intros index w.
  - exists no_upgrade, w; split; [reflexivity | left; reflexivity].
  - destruct (rest_iteration_total total height index e w)
      as (outcome & w1 & Hit & Hbreak).
    cbn [rest_loop]. erewrite bind_ok; [| exact Hit].
    destruct outcome as [vars |].
    + exists vars, w1; split; [reflexivity | apply Hbreak; reflexivity].
    + apply IH.
Qed.

Lemma rest_loop_break total height index e remaining w vars w' :
  rest_iteration total height index e w = (Ok (Break vars), w') ->
  rest_loop total height index (e :: remaining) w = (Ok vars, w').
Proof.
  intros Hit; cbn [rest_loop]; erewrite bind_ok; [| exact Hit]; reflexivity.
Qed.

Lemma rest_loop_continue total height index e remaining w w' :
  rest_iteration total height index e w = (Ok Continue, w') ->
  rest_loop total height index (e :: remaining) w =
    rest_loop total height (S index) remaining w'.
Proof.
  intros Hit; cbn [rest_loop]; erewrite bind_ok; [| exact Hit]; reflexivity.
Qed.

(** What a record returned by [fetch_data_for_network] is made of. *)
Lemma fetch_data_for_network_inv network endpoints network_type w r w' :
  fetch_data_for_network network endpoints network_type w = (Ok r, w') ->
  exists height vars,
    r = {| type := network_type;
           network := network;
           upgrade_found := negb (String.eqb (snd (fst vars)) "");
           latest_block_height := height;
           upgrade_block_height := fst (fst vars);
           version := snd (fst vars);
           rpc_server := rpc_server r;
           source := snd vars |} /\
    (vars = no_upgrade \/ accepted vars height).
Proof.
  unfold fetch_data_for_network; intros Hrun.
  apply bind_inv_ok in Hrun; destruct Hrun as (rpcs & w1 & _ & Hrun).
  apply bind_inv_ok in Hrun; destruct Hrun as (rests & w2 & _ & Hrun).
  apply bind_inv_ok in Hrun; destruct Hrun as (rpcs' & w3 & _ & Hrun).
  apply bind_inv_ok in Hrun; destruct Hrun as (rests' & w4 & _ & Hrun).
  apply bind_inv_ok in Hrun;
    destruct Hrun as ([height server] & w5 & _ & Hrun).
  apply bind_inv_ok in Hrun; destruct Hrun as (rests'' & w6 & _ & Hrun).
  apply bind_inv_ok in Hrun;
    destruct Hrun as ([[uh uv] src] & w7 & Hloop & Hrun).
  unfold ret in Hrun; injection Hrun as <- <-.
  exists height, (uh, uv, src); split; [reflexivity |].
  destruct (rest_loop_total (List.length rests'') height rests'' 0%nat w6)
    as (vars & w8 & Hloop' & Hvars).
  rewrite Hloop in Hloop'; injection Hloop' as <- <-. exact Hvars.
Qed.

(** C3.  Take a candidate of the second loop that is not blacklisted
    and whose two queries return, the active-proposal query
    [(av, ah)] and the current-plan query [(cv, ch)].  The iteration
    accepts the active-proposal result, with source
    "active_upgrade_proposals", if and only if that result is usable
    (version non-empty, height known, height strictly greater than the
    latest block height); it accepts the current-plan result, with
    source "current_upgrade_plan", if and only if the active-proposal
    result is not usable and the current-plan result is; it goes on to
    the next candidate if and only if neither is usable.  An acceptance
    leaves the loop with the accepted values, in the world the two
    queries left; otherwise the loop goes on with the remaining
    candidates. *)
Theorem rest_candidate_decision total height index e remaining w
    av ah cv ch w' :
  blacklisted (address e) = false ->
  query_both (address e) w = (Ok ((av, ah), (cv, ch)), w') ->
  let accept_active :=
    Break (ah, version_text av, "active_upgrade_proposals") in
  let accept_current :=
    Break (ch, version_text cv, "current_upgrade_plan") in
  (usable av ah height <->
   rest_iteration total height index e w = (Ok accept_active, w')) /\
  (~ usable av ah height /\ usable cv ch height <->
   rest_iteration total height index e w = (Ok accept_current, w')) /\
  (~ usable av ah height /\ ~ usable cv ch height <->
   rest_iteration total height index e w = (Ok Continue, w')) /\
  (forall vars,
      rest_iteration total height index e w = (Ok (Break vars), w') ->
      rest_loop total height index (e :: remaining) w = (Ok vars, w')) /\
  (rest_iteration total height index e w = (Ok Continue, w') ->
   rest_loop total height index (e :: remaining) w =
     rest_loop total height (S index) remaining w').
Proof.
  intros Hb Hq accept_active accept_current.
  split; [| split; [| split; [| split]]];
    [| | | intros vars; apply rest_loop_break | apply rest_loop_continue].
  all: rewrite (rest_iteration_queried total height index e w _ _ w' Hb Hq).
  all: subst accept_active accept_current; unfold choose.
  all: rewrite <- ?acceptable_false_iff, <- ?acceptable_iff.
  all: destruct (acceptable av ah height), (acceptable cv ch height).
  all: split; [intros; try reflexivity; intuition congruence | intros [=]].
  all: auto.
Qed.

(** C4.  A record returned by [fetch_data_for_network] has
    [upgrade_found] equal to [version != ""], and when [upgrade_found]
    is true its [upgrade_block_height] is set to a height strictly
    greater than the [latest_block_height] of the same record,
    whatever that is. *)
Theorem network_result_invariant network endpoints network_type w r w' :
  fetch_data_for_network network endpoints network_type w = (Ok r, w') ->
  upgrade_found r = negb (String.eqb (version r) "") /\
  (upgrade_found r = true ->
   exists h, upgrade_block_height r = Some h /\ h > latest_block_height r).
Proof.
  intros Hrun.
  destruct (fetch_data_for_network_inv _ _ _ _ _ _ Hrun)
    as (height & vars & -> & Hvars); cbn.
  split; [reflexivity |].
  destruct Hvars as [-> | (h & v & src & -> & _ & Hh & _)]; cbn.
  - discriminate.
  - intros _; exists h; split; [reflexivity | exact Hh].
Qed.

(** C10.  In a record returned by [fetch_data_for_network], [source] is
    "", "active_upgrade_proposals" or "current_upgrade_plan"; it is
    non-empty exactly when [upgrade_found] is true; and
    [upgrade_block_height] is [None] exactly when [upgrade_found] is
    false. *)
Theorem network_result_fields_set_together network endpoints network_type
    w r w' :
  fetch_data_for_network network endpoints network_type w = (Ok r, w') ->
  (source r = "" \/ source r = "active_upgrade_proposals" \/
   source r = "current_upgrade_plan") /\
  (source r <> "" <-> upgrade_found r = true) /\
  (upgrade_block_height r = None <-> upgrade_found r = false).
Proof.
  intros Hrun.
  destruct (fetch_data_for_network_inv _ _ _ _ _ _ Hrun)
    as (height & vars & -> & Hvars); cbn.
  destruct Hvars as [-> | (h & v & src & -> & Hv & _ & Hsrc)]; cbn.
  - split; [left; reflexivity |].
    split; split; intros; congruence.
  - apply String.eqb_neq in Hv; rewrite Hv; cbn.
    split; [right; exact Hsrc |].
    split; split; intros; try congruence.
    destruct Hsrc as [-> | ->]; discriminate.
Qed.

End Reconciler.

Lemma osmosis_run :
  @fetch_data_for_network upgrade_network "osmosis" osmosis_endpoints
    "mainnet" [] = (Ok osmosis_result, osmosis_requests).
Proof. reflexivity. Defined.

Lemma rest_candidate_decision_witness :
  @rest_loop upgrade_network 2 800 0
    [ep "https://rest.a"; ep "https://rest.b"] [] =
    (Ok (Some 1000, "5.0", "active_upgrade_proposals"),
     ["https://rest.a" ++ proposals_path;
      "https://rest.a" ++ current_plan_path]) /\
  @rest_loop upgrade_network 1 800 0 [ep "https://rest.b"] [] =
    (Ok (Some 900, "3.2", "current_upgrade_plan"),
     ["https://rest.b" ++ proposals_path;
      "https://rest.b" ++ current_plan_path]).
Proof.
  split.
  - destruct (@rest_candidate_decision upgrade_network 2 800 0%nat
                (ep "https://rest.a") [ep "https://rest.b"] []
                (Some "5.0") (Some 1000) None None _ eq_refl eq_refl)
      as (Hactive & _ & _ & Hbreak & _).
    apply Hbreak, Hactive.
    exists "5.0", 1000.
    split; [reflexivity | split; [discriminate | split; [reflexivity | lia]]].
  - destruct (@rest_candidate_decision upgrade_network 1 800 0%nat
                (ep "https://rest.b") [] []
                None None (Some "3.2") (Some 900) _ eq_refl eq_refl)
      as (_ & Hcurrent & _ & Hbreak & _).
    apply Hbreak, Hcurrent. split.
    + intros (v & h & Hv & _); discriminate Hv.
    + exists "3.2", 900.
      split; [reflexivity | split; [discriminate | split; [reflexivity | lia]]].
Defined.

Lemma network_result_invariant_witness :
  upgrade_found osmosis_result = negb (String.eqb (version osmosis_result) "") /\
  (upgrade_found osmosis_result = true ->
   exists h, upgrade_block_height osmosis_result = Some h /\
             h > latest_block_height osmosis_result).
Proof.
  exact (@network_result_invariant upgrade_network "osmosis" osmosis_endpoints
           "mainnet" [] osmosis_result osmosis_requests osmosis_run).
Defined.

Lemma network_result_fields_set_together_witness :
  (source osmosis_result = "" \/
   source osmosis_result = "active_upgrade_proposals" \/
   source osmosis_result = "current_upgrade_plan") /\
  (source osmosis_result <> "" <-> upgrade_found osmosis_result = true) /\
  (upgrade_block_height osmosis_result = None <->
   upgrade_found osmosis_result = false).
Proof.
  exact (@network_result_fields_set_together upgrade_network "osmosis"
           osmosis_endpoints "mainnet" [] osmosis_result osmosis_requests
           osmosis_run).
Defined.

(** ** The version pattern *)

Lemma append_nil_r (s : string) : s ++ "" = s.
Proof. induction s as [| c s IH]; simpl; [| rewrite IH]; reflexivity. Qed.

Lemma append_assoc (a b c : string) : (a ++ b) ++ c = a ++ b ++ c.
Proof. induction a as [| x a IH]; simpl; [| rewrite IH]; reflexivity. Qed.

Lemma length_append (a b : string) :
  String.length (a ++ b) = (String.length a + String.length b)%nat.
Proof. induction a as [| x a IH]; simpl; [| rewrite IH]; reflexivity. Qed.

Lemma append_split_unique (a : string) :
  forall a' b b',
    a ++ b = a' ++ b' -> String.length a = String.length a' ->
    a = a' /\ b = b'.
Proof.
  induction a as [| x a IH]; intros [| x' a'] b b' Heq Hlen;
    try discriminate Hlen.
  - split; [reflexivity | exact Heq].
  - simpl in Heq, Hlen. injection Heq as -> Heq. injection Hlen as Hlen.
    destruct (IH a' b b' Heq Hlen) as [-> ->]. split; reflexivity.
Qed.

Ltac normalize_append :=
  repeat (progress (cbn [append]; rewrite ?append_assoc, ?append_nil_r)).

Lemma all_digits_cons (c : ascii) (s : string) :
  all_digits (String c s) <-> is_digit c = true /\ all_digits s.
Proof.
  unfold all_digits; simpl; split.
  - intros Hall; split; [exact (Forall_inv Hall) | exact (Forall_inv_tail Hall)].
  - intros [Hc Hs]; constructor; assumption.
Qed.

Lemma all_digits_append (a b : string) :
  all_digits a -> all_digits b -> all_digits (a ++ b).
Proof.
  induction a as [| x a IH]; simpl; intros Ha Hb; [exact Hb |].
  apply all_digits_cons in Ha; destruct Ha as [Hx Ha].
  apply all_digits_cons; split; [exact Hx | apply IH; assumption].
Qed.

(** What [span_digits] takes is a run of digits, and it stops only at
    the end of the text or in front of a character that is not a
    digit. *)
Lemma span_digits_spec (s : string) :
  forall d t,
    span_digits s = (d, t) ->
    s = d ++ t /\ all_digits d /\ span_digits t = ("", t).
Proof.
  induction s as [| c s IH]; intros d t; simpl.
  - intros [= <- <-]; repeat split. constructor.
  - destruct (is_digit c) eqn:Hc.
    + destruct (span_digits s) as [d' t'].
      intros [= <- <-]. destruct (IH d' t' eq_refl) as (-> & Hd & Ht).
      repeat split; [| exact Ht].
      apply all_digits_cons; split; assumption.
    + intros [= <- <-]; repeat split; [constructor |].
      simpl; rewrite Hc; reflexivity.
Qed.

Lemma span_digits_append (a r : string) :
  all_digits a ->
  span_digits (a ++ r) = (a ++ fst (span_digits r), snd (span_digits r)).
Proof.
  induction a as [| x a IH]; simpl; intros Ha.
  - destruct (span_digits r); reflexivity.
  - apply all_digits_cons in Ha; destruct Ha as [Hx Ha].
    rewrite Hx, (IH Ha); reflexivity.
Qed.

(** In front of a dot the run of digits ends. *)
Lemma span_digits_before_dot (a r : string) :
  all_digits a -> span_digits (a ++ String "." r) = (a, String "." r).
Proof.
  intros Ha; rewrite (span_digits_append _ _ Ha); simpl.
  rewrite append_nil_r; reflexivity.
Qed.

Lemma numeric_append (a d : string) :
  numeric a -> all_digits d -> numeric (a ++ d).
Proof.
  intros [Hne Ha] Hd; split; [| apply all_digits_append; assumption].
  destruct a; [congruence | discriminate].
Qed.

Lemma match_dot_digits_sound (s g t : string) :
  match_dot_digits s = Some (g, t) ->
  exists d, g = "." ++ d /\ numeric d /\ s = g ++ t.
Proof.
  destruct s as [| c r]; simpl; [discriminate |].
  destruct (Ascii.eqb c ".") eqn:Hc; [| discriminate].
  apply Ascii.eqb_eq in Hc; subst c.
  destruct (span_digits r) as [d t'] eqn:Hspan.
  destruct (span_digits_spec r d t' Hspan) as (-> & Hd & _).
  destruct d as [| x d]; [discriminate |].
  intros [= <- <-]. exists (String x d); repeat split; [discriminate | exact Hd].
Qed.

Lemma match_dot_digits_complete (b r : string) :
  numeric b ->
  exists d t,
    span_digits r = (d, t) /\
    match_dot_digits (String "." (b ++ r)) = Some (String "." (b ++ d), t).
Proof.
  intros [Hne Hb]. destruct (span_digits r) as [d t] eqn:Hspan.
  exists d, t; split; [reflexivity |]. simpl.
  rewrite (span_digits_append _ _ Hb), Hspan; simpl.
  destruct b as [| x b]; [congruence | reflexivity].
Qed.

Lemma version_shape_nonempty (g : string) : version_shape g -> g <> "".
Proof.
  intros [a [Ha _] | a b [Ha _] _ | a b c [Ha _] _ _];
    destruct a; simpl; congruence.
Qed.

Lemma match_here_sound (s g : string) :
  match_here s = Some g ->
  exists post, s = "v" ++ g ++ post /\ version_shape g.
Proof.
  destruct s as [| c r]; simpl; [discriminate |].
  destruct (Ascii.eqb c "v") eqn:Hc; [| discriminate].
  apply Ascii.eqb_eq in Hc; subst c.
  destruct (span_digits r) as [d t] eqn:Hspan.
  destruct (span_digits_spec r d t Hspan) as (-> & Hd & _).
  destruct d as [| x d]; [discriminate |].
  assert (Ha : numeric (String x d)) by (split; [discriminate | exact Hd]).
  intros [= <-]; unfold match_groups.
  destruct (match_dot_digits t) as [[g1 t1] |] eqn:H1.
  - destruct (match_dot_digits_sound _ _ _ H1) as (b & -> & Hb & ->).
    destruct (match_dot_digits t1) as [[g2 t2] |] eqn:H2.
    + destruct (match_dot_digits_sound _ _ _ H2) as (c & -> & Hc & ->).
      exists t2; split.
      * normalize_append; reflexivity.
      * match goal with
        | |- version_shape ?g =>
            replace g with (String x d ++ "." ++ b ++ "." ++ c)
              by (normalize_append; reflexivity)
        end.
        apply shape_patch; assumption.
    + exists t1; split.
      * normalize_append; reflexivity.
      * match goal with
        | |- version_shape ?g =>
            replace g with (String x d ++ "." ++ b)
              by (normalize_append; reflexivity)
        end.
        apply shape_minor; assumption.
  - exists t; split.
    + normalize_append; reflexivity.
    + rewrite append_nil_r; apply shape_major; exact Ha.
Qed.

(** Where a text of the shape stands after a [v], the matcher succeeds
    and takes at least that text. *)
Lemma match_here_complete (g post : string) :
  version_shape g ->
  exists extra, match_here ("v" ++ g ++ post) = Some (g ++ extra).
Proof.
  intros [a Ha | a b Ha Hb | a b c Ha Hb Hc];
    cbn [append match_here Ascii.eqb Bool.eqb]; cbv iota.
  - rewrite (span_digits_append _ _ (proj2 Ha)).
    destruct (span_digits post) as [d t]; cbn [fst snd].
    destruct Ha as [Hne _].
    destruct a as [| x a]; [congruence |]; cbn [append].
    exists (d ++ match_groups t). normalize_append; reflexivity.
  - normalize_append. rewrite (span_digits_before_dot _ _ (proj2 Ha)).
    destruct (match_dot_digits_complete b post Hb) as (d & t & _ & Hm).
    unfold match_groups; rewrite Hm.
    destruct Ha as [Hne _].
    destruct a as [| x a]; [congruence |].
    destruct (match_dot_digits t) as [[g2 t2] |].
    + exists (d ++ g2). normalize_append; reflexivity.
    + exists d. normalize_append; reflexivity.
  - normalize_append. rewrite (span_digits_before_dot _ _ (proj2 Ha)).
    destruct (match_dot_digits_complete b (String "." (c ++ post)) Hb)
      as (d & t & Hspan & Hm).
    cbn in Hspan; injection Hspan as <- <-.
    unfold match_groups; rewrite Hm.
    destruct (match_dot_digits_complete c post Hc) as (d & t & _ & Hm').
    rewrite Hm'.
    destruct Ha as [Hne _].
    destruct a as [| x a]; [congruence |].
    exists d. normalize_append; reflexivity.
Qed.

(** [search] returns the capture at the first position where the
    anchored matcher succeeds. *)
Lemma search_found (s : string) :
  forall g,
    search s = Some g ->
    exists pre rest,
      s = pre ++ rest /\ match_here rest = Some g /\
      forall pre' rest',
        s = pre' ++ rest' ->
        (String.length pre' < String.length pre)%nat ->
        match_here rest' = None.
Proof.
  induction s as [| c s IH]; intros g.
  - simpl; discriminate.
  - cbn [search]. destruct (match_here (String c s)) as [g0 |] eqn:Hhere.
    + intros [= <-]. exists "", (String c s).
      split; [reflexivity | split; [exact Hhere |]].
      intros pre' rest' _ Hlt; simpl in Hlt; lia.
    + intros Hs. destruct (IH g Hs) as (pre & rest & -> & Hm & Hleft).
      exists (String c pre), rest.
      split; [reflexivity | split; [exact Hm |]].
      intros [| c' pre'] rest' Heq Hlt.
      * simpl in Heq; subst rest'; exact Hhere.
      * simpl in Heq, Hlt. injection Heq as <- Heq.
        apply (Hleft pre' rest' Heq); lia.
Qed.

Lemma search_not_found (s : string) :
  search s = None ->
  forall pre rest, s = pre ++ rest -> match_here rest = None.
Proof.
  induction s as [| c s IH]; cbn [search].
  - intros _ [| c' pre] rest Heq; simpl in Heq; [subst rest; reflexivity |].
    discriminate Heq.
  - destruct (match_here (String c s)) as [g0 |] eqn:Hhere; [discriminate |].
    intros Hs [| c' pre] rest Heq; simpl in Heq.
    + subst rest; exact Hhere.
    + injection Heq as <- Heq. exact (IH Hs pre rest Heq).
Qed.

Lemma search_first_match (s g : string) :
  search s = Some g -> first_match s g.
Proof.
  intros Hs. destruct (search_found s g Hs) as (pre & rest & -> & Hm & Hleft).
  destruct (match_here_sound rest g Hm) as (post & -> & Hshape).
  exists pre, post; split; [reflexivity | split; [exact Hshape |]].
  intros pre' g' post' Heq Hshape'.
  destruct (match_here_complete g' post' Hshape') as (extra & Hm').
  split.
  - destruct (Nat.le_gt_cases (String.length pre) (String.length pre'))
      as [Hle | Hlt]; [exact Hle |].
    rewrite (Hleft pre' _ Heq Hlt) in Hm'; discriminate Hm'.
  - intros Hlen. symmetry in Hlen.
    destruct (append_split_unique _ _ _ _ Heq Hlen) as [_ Hrest].
    rewrite <- Hrest, Hm in Hm'. injection Hm' as ->.
    rewrite length_append; lia.
Qed.

Lemma search_no_match (s : string) :
  search s = None ->
  forall pre g post, s = pre ++ "v" ++ g ++ post -> ~ version_shape g.
Proof.
  intros Hs pre g post Heq Hshape.
  destruct (match_here_complete g post Hshape) as (extra & Hm).
  rewrite (search_not_found s Hs pre _ Heq) in Hm; discriminate Hm.
Qed.

(** C6.  [search] returns the text captured by the first match of the
    pattern: the text stands in the string right after a [v], it is one
    to three dot-separated groups of digits (so it has no leading [v]),
    no match starts further to the left and none at that place is
    longer; it returns nothing only when the string holds no match.  In
    the active-proposals reader the version is the longer of the two
    captures when the plan name and the description both match, and the
    only capture when just one of them matches.  Name
    "upgrade-v2.1.0-handler" with description "see v2" gives "2.1.0"; a
    description "vault v1.4" with a name that does not match gives
    "1.4". *)
Theorem version_extraction :
  (forall s g, search s = Some g -> first_match s g) /\
  (forall s, search s = None ->
             forall pre g post,
               s = pre ++ "v" ++ g ++ post -> ~ version_shape g) /\
  (forall p d,
      ((String.length p > String.length d)%nat ->
       select_version (Some p) (Some d) = Some p) /\
      ((String.length d > String.length p)%nat ->
       select_version (Some p) (Some d) = Some d) /\
      select_version (Some p) None = Some p /\
      select_version None (Some d) = Some d) /\
  select_version (search "upgrade-v2.1.0-handler") (search "see v2") =
    Some "2.1.0" /\
  select_version (search "upgrade handler") (search "vault v1.4") =
    Some "1.4" /\
  examine_proposal
    (upgrade_proposal "upgrade-v2.1.0-handler" "see v2" (JStr "1000")) =
    Ok (Some ("2.1.0", 1000)) /\
  examine_proposal
    (upgrade_proposal "upgrade handler" "vault v1.4" (JStr "1000")) =
    Ok (Some ("1.4", 1000)).
Proof.
  split; [exact search_first_match |].
  split; [exact search_no_match |].
  split.
  - intros p d; unfold select_version.
    split; [| split; [| split; reflexivity]].
    + intros Hlt. apply Nat.ltb_lt in Hlt; rewrite Hlt; reflexivity.
    + intros Hlt.
      destruct (String.length d <? String.length p)%nat eqn:Hcmp;
        [apply Nat.ltb_lt in Hcmp; lia | reflexivity].
  - repeat split.
Qed.

Lemma version_extraction_witness :
  first_match "upgrade-v2.1.0-handler" "2.1.0" /\
  select_version (Some "2.1.0") (Some "2") = Some "2.1.0".
Proof.
  destruct version_extraction as (Hsearch & _ & Hselect & _).
  split.
  - apply Hsearch; reflexivity.
  - apply (proj1 (Hselect "2.1.0" "2")); simpl; lia.
Defined.

(** ** The active-proposals reader *)

Lemma search_nonempty (s g : string) : search s = Some g -> g <> "".
Proof.
  intros Hs. destruct (search_first_match s g Hs) as (_ & _ & _ & Hshape & _).
  exact (version_shape_nonempty g Hshape).
Qed.

Lemma select_version_nonempty (name description v : string) :
  select_version (search name) (search description) = Some v -> v <> "".
Proof.
  unfold select_version.
  destruct (search name) as [p |] eqn:Hp,
           (search description) as [d |] eqn:Hd; try discriminate.
  - destruct (String.length d <? String.length p)%nat; intros [= <-];
      [exact (search_nonempty _ _ Hp) | exact (search_nonempty _ _ Hd)].
  - intros [= <-]; exact (search_nonempty _ _ Hp).
  - intros [= <-]; exact (search_nonempty _ _ Hd).
Qed.

Lemma eq_str_false (x : json) (literal : string) :
  x <> JStr literal -> eq_str x literal = false.
Proof.
  destruct x; simpl; try reflexivity.
  intros Hne. apply String.eqb_neq; congruence.
Qed.

Lemma int_or_zero_read (height_field : json) (h : Z) :
  height_read height_field h -> int_or_zero height_field = Ok h.
Proof.
  unfold int_or_zero; intros [-> | [-> ->]]; reflexivity.
Qed.

Lemma examine_other_proposal (p : json) :
  other_proposal p -> examine_proposal p = Ok None.
Proof.
  intros (content & type & Hc & Ht & Hne); unfold examine_proposal.
  rewrite Hc; cbn [rbind]. rewrite Ht; cbn [rbind].
  rewrite (eq_str_false _ _ Hne); reflexivity.
Qed.

Lemma examine_upgrade_proposal (p : json) name description height_field h :
  upgrade_fields p name description height_field ->
  height_read height_field h ->
  examine_proposal p =
    Ok (option_map (fun v => (v, h))
          (select_version (search name) (search description))).
Proof.
  intros (content & plan & Hc & Ht & Hp & Hn & Hd & Hh) Hread.
  unfold examine_proposal.
  rewrite Hc; cbn [rbind]. rewrite Ht; cbn [rbind].
  unfold eq_str; rewrite String.eqb_refl.
  rewrite Hp; cbn [rbind]. rewrite Hn; cbn [rbind py_search].
  rewrite Hd; cbn [rbind py_search]. rewrite Hh; cbn [rbind].
  rewrite (int_or_zero_read _ _ Hread); cbn [rbind].
  destruct (select_version (search name) (search description)) as [v |] eqn:Hv;
    [| reflexivity].
  apply select_version_nonempty, String.eqb_neq in Hv.
  unfold version_truthy; rewrite Hv; reflexivity.
Qed.

Lemma examine_passed_over (p : json) :
  passed_over p -> examine_proposal p = Ok None.
Proof.
  intros [Hother | (name & description & hf & h & Hf & Hv & Hh)].
  - exact (examine_other_proposal p Hother).
  - rewrite (examine_upgrade_proposal _ _ _ _ _ Hf Hh), Hv; reflexivity.
Qed.

Lemma scan_proposals_passed_over (proposals : list json) :
  Forall passed_over proposals -> scan_proposals proposals = Ok (None, None).
Proof.
  induction 1 as [| p l Hp _ IH]; cbn [scan_proposals]; [reflexivity |].
  rewrite (examine_passed_over p Hp); exact IH.
Qed.

Lemma scan_proposals_first (before : list json) p after v h :
  Forall passed_over before ->
  examine_proposal p = Ok (Some (v, h)) ->
  scan_proposals (before ++ p :: after)%list = Ok (Some v, Some h).
Proof.
  induction 1 as [| q l Hq _ IH]; intros Hp; cbn [app scan_proposals].
  - rewrite Hp; reflexivity.
  - rewrite (examine_passed_over q Hq); exact (IH Hp).
Qed.

Lemma int_or_zero_raises (height_field : json) (e : exn) :
  py_int height_field = Raise e -> e <> ValueError ->
  int_or_zero height_field = Raise e.
Proof.
  unfold int_or_zero; intros -> Hne.
  destruct e; try reflexivity. contradiction Hne; reflexivity.
Qed.

Lemma examine_upgrade_unreadable (p : json) name description height_field e :
  upgrade_fields p name description height_field ->
  py_int height_field = Raise e -> e <> ValueError ->
  examine_proposal p = Raise e.
Proof.
  intros (content & plan & Hc & Ht & Hp & Hn & Hd & Hh) Hraise Hne.
  unfold examine_proposal.
  rewrite Hc; cbn [rbind]. rewrite Ht; cbn [rbind].
  unfold eq_str; rewrite String.eqb_refl.
  rewrite Hp; cbn [rbind]. rewrite Hn; cbn [rbind py_search].
  rewrite Hd; cbn [rbind py_search]. rewrite Hh; cbn [rbind].
  rewrite (int_or_zero_raises _ _ Hraise Hne); reflexivity.
Qed.

Lemma scan_proposals_raises (before : list json) p after e :
  Forall passed_over before ->
  examine_proposal p = Raise e ->
  scan_proposals (before ++ p :: after)%list = Raise e.
Proof.
  induction 1 as [| q l Hq _ IH]; intros Hp; cbn [app scan_proposals].
  - rewrite Hp; reflexivity.
  - rewrite (examine_passed_over q Hq); exact (IH Hp).
Qed.

Section ActiveProposals.
Context `{Environment}.

Lemma fetch_active_failed rest_url w k w' :
  http_get (rest_url ++ proposals_path) w = (Failed k, w') ->
  fetch_active_upgrade_proposals rest_url w =
    (Raise (RequestException k), w').
Proof.
  intros Hget. unfold fetch_active_upgrade_proposals.
  rewrite !try_except_reraise. unfold bind, requests_get.
  fold proposals_path; rewrite Hget; reflexivity.
Qed.

Lemma fetch_active_received rest_url w r w' :
  http_get (rest_url ++ proposals_path) w = (Received r, w') ->
  fetch_active_upgrade_proposals rest_url w =
    if status_code r =? 501 then (Ok (None, None), w')
    else if (400 <=? status_code r) && (status_code r <? 600)
    then (Raise (RequestException HTTPError), w')
    else
      match json_body r with
      | NotJSON => (Raise (RequestException JSONDecodeError), w')
      | Decoded data => (read_proposals data, w')
      | Undecodable d => (Raise (decoder_exn d), w')
      end.
Proof.
  intros Hget. unfold fetch_active_upgrade_proposals.
  rewrite !try_except_reraise. unfold bind, requests_get.
  fold proposals_path; rewrite Hget.
  destruct (status_code r =? 501); [reflexivity |].
  unfold raise_for_status.
  destruct ((400 <=? status_code r) && (status_code r <? 600));
    [reflexivity |].
  unfold response_json, lift.
  destruct (json_body r) as [| data | d]; unfold ret, raise;
    [reflexivity | | reflexivity].
  destruct (read_proposals data); reflexivity.
Qed.

Lemma error_status_test (code : Z) :
  (400 <=? code) && (code <? 600) = true <-> error_status code.
Proof.
  unfold error_status.
  rewrite andb_true_iff, Z.leb_le, Z.ltb_lt; reflexivity.
Qed.

(** C7, as amended.  For status 501 the reader returns [(None, None)]
    without looking at the body.  For every other status that
    [raise_for_status] rejects, 400 to 599, it raises [HTTPError], and
    when the request fails in transport it raises the exception of that
    failure: both are [RequestException]s, which the reconciler catches
    to go on with another endpoint.  So among the statuses 400 to 599
    [(None, None)] is returned exactly for 501.  Every other status, 2xx
    or not (300, 304, 600), is treated as a success: a body that is not
    JSON raises [JSONDecodeError], an exception the decoder lets through
    is raised as it is, and from a decoded body the answer is read as
    lines 122-151 read it, [(None, None)] included. *)
Theorem fetch_active_upgrade_proposals_status rest_url w :
  (forall r w',
      http_get (rest_url ++ proposals_path) w = (Received r, w') ->
      status_code r = 501 ->
      fetch_active_upgrade_proposals rest_url w = (Ok (None, None), w')) /\
  (forall r w',
      http_get (rest_url ++ proposals_path) w = (Received r, w') ->
      error_status (status_code r) -> status_code r <> 501 ->
      fetch_active_upgrade_proposals rest_url w =
        (Raise (RequestException HTTPError), w')) /\
  (forall k w',
      http_get (rest_url ++ proposals_path) w = (Failed k, w') ->
      fetch_active_upgrade_proposals rest_url w =
        (Raise (RequestException k), w')) /\
  (forall r w',
      http_get (rest_url ++ proposals_path) w = (Received r, w') ->
      error_status (status_code r) ->
      (fetch_active_upgrade_proposals rest_url w = (Ok (None, None), w') <->
       status_code r = 501)) /\
  (forall r w',
      http_get (rest_url ++ proposals_path) w = (Received r, w') ->
      status_code r <> 501 ->
      ~ error_status (status_code r) ->
      (json_body r = NotJSON ->
       fetch_active_upgrade_proposals rest_url w =
         (Raise (RequestException JSONDecodeError), w')) /\
      (forall data,
          json_body r = Decoded data ->
          fetch_active_upgrade_proposals rest_url w =
            (read_proposals data, w')) /\
      (forall d,
          json_body r = Undecodable d ->
          fetch_active_upgrade_proposals rest_url w =
            (Raise (decoder_exn d), w'))).
Proof.
  split; [| split; [| split; [| split]]].
  - intros r w' Hget Hst. rewrite (fetch_active_received _ _ _ _ Hget), Hst.
    reflexivity.
  - intros r w' Hget Herr Hst. rewrite (fetch_active_received _ _ _ _ Hget).
    apply Z.eqb_neq in Hst; rewrite Hst.
    apply error_status_test in Herr; rewrite Herr; reflexivity.
  - intros k w'; apply fetch_active_failed.
  - intros r w' Hget Herr. rewrite (fetch_active_received _ _ _ _ Hget).
    apply error_status_test in Herr; rewrite Herr.
    destruct (status_code r =? 501) eqn:Hst.
    + apply Z.eqb_eq in Hst; split; [intros _; exact Hst | reflexivity].
    + apply Z.eqb_neq in Hst; split; [discriminate | contradiction].
  - intros r w' Hget Hst Herr. rewrite (fetch_active_received _ _ _ _ Hget).
    apply Z.eqb_neq in Hst; rewrite Hst.
    destruct ((400 <=? status_code r) && (status_code r <? 600)) eqn:Htest;
      [apply error_status_test in Htest; contradiction |].
    split; [intros ->; reflexivity |].
    split; [intros data ->; reflexivity | intros d ->; reflexivity].
Qed.

(** C5, as amended.  On a successful response whose [proposals] member
    is a list, the proposals are examined in the order of the list.
    Proposals of another content type are passed over, and so are
    software-upgrade proposals in which neither the plan name nor the
    description holds a version and whose height [int] can take, as a
    number or as a text it rejects.  The pair returned is the version and
    the height of the first software-upgrade proposal in which a
    version is found, the height being 0 when [int] rejects its text;
    when every proposal is passed over, [(None, None)] is returned.  A
    software-upgrade proposal that is reached and whose height [int]
    cannot take at all, such as [null], makes the function raise, with
    or without a version in it. *)
Theorem fetch_active_first_versioned_upgrade rest_url w r w' data proposals :
  http_get (rest_url ++ proposals_path) w = (Received r, w') ->
  status_code r <> 501 ->
  ~ error_status (status_code r) ->
  json_body r = Decoded data ->
  dict_get data "proposals" (JList []) = Ok (JList proposals) ->
  (forall before p after name description height_field v h,
      proposals = (before ++ p :: after)%list ->
      Forall passed_over before ->
      upgrade_fields p name description height_field ->
      select_version (search name) (search description) = Some v ->
      height_read height_field h ->
      fetch_active_upgrade_proposals rest_url w =
        (Ok (Some v, Some h), w')) /\
  (Forall passed_over proposals ->
   fetch_active_upgrade_proposals rest_url w = (Ok (None, None), w')) /\
  (forall before p after name description height_field e,
      proposals = (before ++ p :: after)%list ->
      Forall passed_over before ->
      upgrade_fields p name description height_field ->
      py_int height_field = Raise e -> e <> ValueError ->
      fetch_active_upgrade_proposals rest_url w = (Raise e, w')).
Proof.
  intros Hget Hst Herr Hbody Hfield.
  rewrite (fetch_active_received _ _ _ _ Hget).
  apply Z.eqb_neq in Hst; rewrite Hst.
  destruct ((400 <=? status_code r) && (status_code r <? 600)) eqn:Htest;
    [apply error_status_test in Htest; contradiction |].
  rewrite Hbody; unfold read_proposals; rewrite Hfield; cbn [rbind py_iter].
  split; [| split].
  - intros before p after name description hf v h -> Hbefore Hp Hv Hh.
    rewrite (scan_proposals_first before p after v h Hbefore);
      [reflexivity |].
    rewrite (examine_upgrade_proposal _ _ _ _ _ Hp Hh), Hv; reflexivity.
  - intros Hall; rewrite (scan_proposals_passed_over _ Hall); reflexivity.
  - intros before p after name description hf e -> Hbefore Hp Hraise Hne.
    rewrite (scan_proposals_raises before p after e Hbefore);
      [reflexivity |].
    exact (examine_upgrade_unreadable _ _ _ _ _ Hp Hraise Hne).
Qed.

End ActiveProposals.

Lemma vega_passed_over : passed_over vega_proposal.
Proof.
  right. exists "Vega", "Vega upgrade", (JStr "8695000"), 8695000.
  split; [| split; [reflexivity | left; reflexivity]].
  eexists; eexists.
  split; [reflexivity |]. split; [reflexivity |]. split; [reflexivity |].
  split; [reflexivity |]. split; reflexivity.
Defined.

Lemma theta_upgrade_fields :
  upgrade_fields theta_proposal "v7-Theta" "" (JStr "10085397").
Proof.
  eexists; eexists.
  split; [reflexivity |]. split; [reflexivity |]. split; [reflexivity |].
  split; [reflexivity |]. split; reflexivity.
Defined.

Lemma unscheduled_upgrade_fields :
  upgrade_fields unscheduled_proposal "Vega" "Vega upgrade" JNull.
Proof.
  eexists; eexists.
  split; [reflexivity |]. split; [reflexivity |]. split; [reflexivity |].
  split; [reflexivity |]. split; reflexivity.
Defined.

Lemma fetch_active_first_versioned_upgrade_witness :
  @fetch_active_upgrade_proposals hub_network "https://rest.hub" [] =
    (Ok (Some "7", Some 10085397), ["https://rest.hub" ++ proposals_path]) /\
  @fetch_active_upgrade_proposals hub_network "https://rest.quiet" [] =
    (Ok (None, None), ["https://rest.quiet" ++ proposals_path]) /\
  @fetch_active_upgrade_proposals redirecting_network "https://rest.m" [] =
    (Raise TypeError, ["https://rest.m" ++ proposals_path]).
Proof.
  assert (H200 : 200 <> 501) by lia.
  assert (Hok : ~ error_status 200) by (unfold error_status; lia).
  split; [| split].
  3:{ destruct (@fetch_active_first_versioned_upgrade redirecting_network
                  "https://rest.m" [] _ _ _
                  [unscheduled_proposal; theta_proposal]
                  eq_refl H200 Hok eq_refl eq_refl) as (_ & _ & Traises).
      apply (Traises [] unscheduled_proposal [theta_proposal]
               "Vega" "Vega upgrade" JNull TypeError).
      - reflexivity.
      - constructor.
      - exact unscheduled_upgrade_fields.
      - reflexivity.
      - discriminate. }
  - destruct (@fetch_active_first_versioned_upgrade hub_network
                "https://rest.hub" [] _ _ _ [vega_proposal; theta_proposal]
                eq_refl H200 Hok eq_refl eq_refl) as [Tfirst _].
    apply (Tfirst [vega_proposal] theta_proposal []
             "v7-Theta" "" (JStr "10085397") "7" 10085397).
    + reflexivity.
    + constructor; [exact vega_passed_over | constructor].
    + exact theta_upgrade_fields.
    + reflexivity.
    + left; reflexivity.
  - destruct (@fetch_active_first_versioned_upgrade hub_network
                "https://rest.quiet" [] _ _ _
                [text_proposal "Signal v2 roadmap"; vega_proposal]
                eq_refl H200 Hok eq_refl eq_refl) as (_ & Tnone & _).
    apply Tnone.
    constructor; [| constructor; [exact vega_passed_over | constructor]].
    left. eexists; eexists.
    split; [reflexivity | split; [reflexivity | discriminate]].
Defined.

(** C5, counterexample.  The first software-upgrade proposal of the
    response is "Vega" at height 8695000, in which no version is found;
    the pair returned is not taken from it but from the proposal after
    it. *)
Lemma fetch_active_skips_unversioned_upgrade :
  upgrade_fields vega_proposal "Vega" "Vega upgrade" (JStr "8695000") /\
  search "Vega" = None /\ search "Vega upgrade" = None /\
  py_int (JStr "8695000") = Ok 8695000 /\
  @http_get hub_network ("https://rest.hub" ++ proposals_path) [] =
    (http_ok (proposals_body [vega_proposal; theta_proposal]),
     ["https://rest.hub" ++ proposals_path]) /\
  examine_proposal vega_proposal = Ok None /\
  @fetch_active_upgrade_proposals hub_network "https://rest.hub" [] =
    (Ok (Some "7", Some 10085397), ["https://rest.hub" ++ proposals_path]) /\
  Some 10085397 <> Some 8695000.
Proof.
  split.
  { eexists; eexists.
    split; [reflexivity |]. split; [reflexivity |]. split; [reflexivity |].
    split; [reflexivity |]. split; reflexivity. }
  repeat (split; [reflexivity |]). discriminate.
Qed.

Lemma fetch_active_upgrade_proposals_status_witness :
  @fetch_active_upgrade_proposals hub_network "https://rest.old" [] =
    (Ok (None, None), ["https://rest.old" ++ proposals_path]) /\
  @fetch_active_upgrade_proposals hub_network "https://rest.busy" [] =
    (Raise (RequestException HTTPError),
     ["https://rest.busy" ++ proposals_path]) /\
  @fetch_active_upgrade_proposals hub_network "https://rest.down" [] =
    (Raise (RequestException ConnectionError),
     ["https://rest.down" ++ proposals_path]) /\
  @fetch_active_upgrade_proposals redirecting_network "https://rest.l" [] =
    (Raise (RequestException JSONDecodeError),
     ["https://rest.l" ++ proposals_path]).
Proof.
  split; [| split; [| split]].
  4:{ destruct (@fetch_active_upgrade_proposals_status redirecting_network
                  "https://rest.l" []) as (_ & _ & _ & _ & Tother).
      refine (proj1 (Tother _ _ eq_refl _ _) eq_refl);
        [simpl; lia | unfold error_status; simpl; lia]. }
  - destruct (@fetch_active_upgrade_proposals_status hub_network
                "https://rest.old" []) as (T501 & _).
    exact (T501 _ _ eq_refl eq_refl).
  - destruct (@fetch_active_upgrade_proposals_status hub_network
                "https://rest.busy" []) as (_ & Terror & _).
    apply (Terror _ _ eq_refl); [unfold error_status; simpl; lia | discriminate].
  - destruct (@fetch_active_upgrade_proposals_status hub_network
                "https://rest.down" []) as (_ & _ & Tfailed & _).
    exact (Tfailed ConnectionError _ eq_refl).
Defined.

(** C7, counterexample.  A node answers the proposals query with status
    304, which is not 501 and not a success, and a body that lists no
    proposal: the reader does not fail but returns [(None, None)], the
    answer that means no upgrade.  Another node answers with status 300
    and a body that lists an upgrade to v9 at height 5000: the reader
    returns that upgrade. *)
Lemma fetch_active_accepts_non_success_status :
  @http_get redirecting_network ("https://rest.j" ++ proposals_path) [] =
    (http_answer 304 (proposals_body []),
     ["https://rest.j" ++ proposals_path]) /\
  304 <> 501 /\ ~ (200 <= 304 < 300) /\
  @fetch_active_upgrade_proposals redirecting_network "https://rest.j" [] =
    (Ok (None, None), ["https://rest.j" ++ proposals_path]) /\
  @http_get redirecting_network ("https://rest.k" ++ proposals_path) [] =
    (http_answer 300
       (proposals_body [upgrade_proposal "v9" "" (JStr "5000")]),
     ["https://rest.k" ++ proposals_path]) /\
  300 <> 501 /\ ~ (200 <= 300 < 300) /\
  @fetch_active_upgrade_proposals redirecting_network "https://rest.k" [] =
    (Ok (Some "9", Some 5000), ["https://rest.k" ++ proposals_path]).
Proof.
  split; [reflexivity |]. split; [lia |]. split; [lia |].
  split; [reflexivity |].
  split; [reflexivity |]. split; [lia |]. split; [lia | reflexivity].
Qed.

(** ** Where the RPC server of a record comes from *)

Section RpcServer.
Context `{Environment}.

Lemma get_healthy_rpc_endpoints_incl l w out w' :
  get_healthy_rpc_endpoints l w = (Ok out, w') -> incl out l.
Proof.
  destruct (executor_map_probe l w) as (probed & w1 & Hmap & Hfst).
  unfold get_healthy_rpc_endpoints.
  erewrite bind_ok; [| exact Hmap]. unfold ret; intros [= <- <-].
  rewrite <- Hfst. exact (proj2 (capped_selection_sound probed)).
Qed.

Lemma rpc_scan_server l :
  forall height w h server w',
    rpc_scan l height w = (Ok (h, server), w') ->
    server = "" \/ exists e, In e l /\ server = address e.
Proof.
  induction l as [| e l IH]; intros height w h server w'; cbn [rpc_scan].
  - unfold ret; intros [= _ <- _]; left; reflexivity.
  - intros Hrun. apply bind_inv_ok in Hrun.
    destruct Hrun as (h1 & w1 & _ & Hrun).
    destruct (h1 >? 0).
    + unfold ret in Hrun; injection Hrun as _ <- _.
      right; exists e; split; [left; reflexivity | reflexivity].
    + destruct (IH _ _ _ _ _ Hrun) as [-> | (e' & Hin & ->)];
        [left; reflexivity |].
      right; exists e'; split; [right; exact Hin | reflexivity].
Qed.

(** The RPC server of a record is empty or the address of one of the
    RPC endpoints of the network. *)
Lemma rpc_server_of_network network endpoints network_type w r w' :
  fetch_data_for_network network endpoints network_type w = (Ok r, w') ->
  rpc_server r = "" \/
  exists e, In e (rpc endpoints) /\ rpc_server r = address e.
Proof.
  unfold fetch_data_for_network; intros Hrun.
  apply bind_inv_ok in Hrun; destruct Hrun as (rpcs & w1 & Hprobe & Hrun).
  apply bind_inv_ok in Hrun; destruct Hrun as (rests & w2 & _ & Hrun).
  apply bind_inv_ok in Hrun; destruct Hrun as (rpcs' & w3 & Hshuffle & Hrun).
  apply bind_inv_ok in Hrun; destruct Hrun as (rests' & w4 & _ & Hrun).
  apply bind_inv_ok in Hrun;
    destruct Hrun as ([height server] & w5 & Hscan & Hrun).
  apply bind_inv_ok in Hrun; destruct Hrun as (rests'' & w6 & _ & Hrun).
  apply bind_inv_ok in Hrun;
    destruct Hrun as ([[uh uv] src] & w7 & _ & Hrun).
  unfold ret in Hrun; injection Hrun as <- <-; cbn.
  destruct (rpc_scan_server _ _ _ _ _ _ Hscan) as [-> | (e & Hin & ->)];
    [left; reflexivity |].
  right; exists e; split; [| reflexivity].
  apply (get_healthy_rpc_endpoints_incl _ _ _ _ Hprobe).
  unfold do_shuffle in Hshuffle.
  pose proof (shuffle_permutation rpcs w2) as Hperm.
  destruct (shuffle rpcs w2) as [l' w'']; injection Hshuffle as <- <-.
  exact (Permutation_in e Hperm Hin).
Qed.

End RpcServer.

(** ** The scenarios of the specification, run on scripted networks *)

Example int_of_string_plain : int_of_string "12345" = Some 12345.
Proof. reflexivity. Qed.

Example int_of_string_padded : int_of_string "  -1_000 " = Some (-1000).
Proof. reflexivity. Qed.

Example int_of_string_rejects :
  int_of_string "12a" = None /\ int_of_string "" = None /\
  int_of_string "1__0" = None /\ int_of_string "_1" = None.
Proof. repeat split. Qed.

(** U+00A0 and U+0085 around the digits are skipped; the separators
    U+001C and U+001F are not. *)
Example int_of_string_white_space :
  int_of_string (String (ascii_of_nat 160) "5") = Some 5 /\
  int_of_string (String "5" (String (ascii_of_nat 133) "")) = Some 5 /\
  int_of_string (String "5" (String (ascii_of_nat 31) "")) = None /\
  int_of_string (String (ascii_of_nat 28) "5") = None.
Proof. repeat split. Qed.

Example search_examples :
  search "upgrade-v2.1.0-handler" = Some "2.1.0" /\
  search "v1.2.3.4" = Some "1.2.3" /\
  search "nova v7. next" = Some "7" /\
  search "vault v1.4" = Some "1.4" /\
  search "Vega" = None.
Proof. repeat split. Qed.

(** All RPC candidates return -1 and all REST candidates fail: nothing
    is found, and the blacklisted endpoint is not queried. *)
Example scenario_all_fail :
  @fetch_data_for_network failing_network "stride" failing_endpoints
    "testnet" [] =
    (Ok {| type := "testnet";
           network := "stride";
           upgrade_found := false;
           latest_block_height := -1;
           upgrade_block_height := None;
           version := "";
           rpc_server := "";
           source := "" |},
     [ "https://rpc.c/health"; "https://rpc.e/health";
       "https://rest.c/health"; "https://api.omniflix.nodestake.top/health";
       "https://rest.e/health";
       "https://rpc.c/status"; "https://rpc.e/status";
       "https://rest.c" ++ proposals_path;
       "https://rest.e" ++ proposals_path ]).
Proof. reflexivity. Qed.

(** The proposals query is not implemented, the current plan is v3.2 at
    height 900, and the chain is at height 800. *)
Example scenario_current_plan :
  @fetch_data_for_network upgrade_network "osmosis"
    {| rest := [ep "https://rest.b"]; rpc := [ep "https://rpc.b"] |}
    "mainnet" [] =
    (Ok {| type := "mainnet";
           network := "osmosis";
           upgrade_found := true;
           latest_block_height := 800;
           upgrade_block_height := Some 900;
           version := "3.2";
           rpc_server := "https://rpc.b";
           source := "current_upgrade_plan" |},
     [ "https://rpc.b/health"; "https://rest.b/health";
       "https://rpc.b/status";
       "https://rest.b" ++ proposals_path;
       "https://rest.b" ++ current_plan_path ]).
Proof. reflexivity. Qed.

(** An upgrade whose height the chain has passed is not reported. *)
Example scenario_stale_upgrade :
  @rest_loop upgrade_network 2 1000 0
    [ep "https://rest.a"; ep "https://rest.b"] [] =
    (Ok no_upgrade,
     [ "https://rest.a" ++ proposals_path;
       "https://rest.a" ++ current_plan_path;
       "https://rest.b" ++ proposals_path;
       "https://rest.b" ++ current_plan_path ]).
Proof. reflexivity. Qed.

Example sort_results_example :
  map network
    (sort_results
       [ {| type := "mainnet"; network := "a"; upgrade_found := false;
            latest_block_height := 1; upgrade_block_height := None;
            version := ""; rpc_server := ""; source := "" |};
         osmosis_result;
         {| type := "mainnet"; network := "b"; upgrade_found := false;
            latest_block_height := 2; upgrade_block_height := None;
            version := ""; rpc_server := ""; source := "" |};
         {| type := "testnet"; network := "c"; upgrade_found := true;
            latest_block_height := 3; upgrade_block_height := Some 9;
            version := "1"; rpc_server := ""; source := "current_upgrade_plan" |} ])
  = ["osmosis"; "c"; "a"; "b"].
Proof. reflexivity. Qed.


(** * Further properties of the code *)

(** ** The health check and the prober *)

Section ProberDetails.
Context `{Environment}.

(** X1.  The health check makes one request, to [<endpoint>/health],
    and never raises.  Its verdict is [True] exactly when a response came
    back with status 200: every other status, 204 or a redirect as much
    as an error, and every failure of the request give [False]. *)
Theorem is_endpoint_healthy_criterion (endpoint : string) (w : World) :
  exists b,
    is_endpoint_healthy endpoint w =
      (Ok b, snd (http_get (endpoint ++ "/health") w)) /\
    (b = true <->
     exists r, fst (http_get (endpoint ++ "/health") w) = Received r /\
               status_code r = 200).
Proof.
  unfold is_endpoint_healthy, try_except, bind, requests_get, ret.
  destruct (http_get (endpoint ++ "/health") w) as [[k | r] w']; cbn.
  - exists false; split; [reflexivity |].
    split; [discriminate | intros (r & Hr & _); discriminate Hr].
  - exists (status_code r =? 200); split; [reflexivity |].
    rewrite Z.eqb_eq; split.
    + intros Hst; exists r; split; [reflexivity | exact Hst].
    + intros (r' & [= <-] & Hst); exact Hst.
Qed.

Lemma probes_read_total (l : list endpoint) (w : World) :
  exists verdicts w', probes_read l w verdicts w'.
Proof.
  revert w; induction l as [| e l IH]; intros w.
  - exists [], w; constructor.
  - destruct (is_endpoint_healthy_total (address e) w) as (b & w1 & Hb).
    destruct (IH w1) as (bs & w2 & Hbs).
    exists (b :: bs), w2; econstructor; eassumption.
Qed.

Lemma executor_map_probes_read (l : list endpoint) w verdicts w' :
  probes_read l w verdicts w' ->
  executor_map
    (fun e => is_healthy <- is_endpoint_healthy (address e) ;;
              ret (e, is_healthy)) l w = (Ok (combine l verdicts), w').
Proof.
  induction 1 as [w | e l w b w1 bs w2 Hb _ IH]; [reflexivity |].
  cbn [executor_map combine].
  erewrite bind_ok; [| erewrite bind_ok; [| exact Hb]; reflexivity].
  erewrite bind_ok; [| exact IH]. reflexivity.
Qed.

Lemma probes_read_verdicts (l : list endpoint) w verdicts w' :
  probes_read l w verdicts w' ->
  Forall2 (fun e b => exists w1 w2,
             is_endpoint_healthy (address e) w1 = (Ok b, w2)) l verdicts.
Proof.
  induction 1 as [w | e l w b w1 bs w2 Hb _ IH]; constructor;
    [exists w, w1; exact Hb | exact IH].
Qed.


End ProberDetails.

(** ** How the chain-height reader and the reconciler fail *)

Lemma py_int_raises_cases (v : json) (e : exn) :
  py_int v = Raise e ->
  e = AttributeError \/ e = ValueError \/ e = TypeError \/ e = OverflowError.
Proof.
  destruct v as [| b | n | [q | neg |] | s | l | items]; simpl;
    try (intros E; inversion E; auto).
  destruct (int_of_string s); inversion E; auto.
Qed.

Lemma status_height_raises_cases (data : json) (e : exn) :
  status_height data = Raise e ->
  e = AttributeError \/ e = ValueError \/ e = TypeError \/ e = OverflowError.
Proof.
  unfold status_height, rbind.
  destruct (dict_get data _ _) as [result | e1] eqn:E1.
  2:{ intros E; inversion E; subst.
      left; exact (dict_get_raises _ _ _ _ E1). }
  destruct (dict_get result _ _) as [sync_info | e2] eqn:E2.
  2:{ intros E; inversion E; subst.
      left; exact (dict_get_raises _ _ _ _ E2). }
  destruct (dict_get sync_info _ _) as [height | e3] eqn:E3.
  2:{ intros E; inversion E; subst.
      left; exact (dict_get_raises _ _ _ _ E3). }
  apply py_int_raises_cases.
Qed.

Lemma decoder_exn_not_request_exception (d : decoder_error) :
  is_RequestException (decoder_exn d) = false.
Proof. destruct d; reflexivity. Qed.

Lemma status_height_rejected_text (data : json) (s : string) :
  has_height data (JStr s) -> int_of_string s = None ->
  status_height data = Raise ValueError.
Proof.
  intros Hh Hs. rewrite (status_height_present _ _ Hh); simpl.
  rewrite Hs; reflexivity.
Qed.

Lemma status_height_not_object (data : json) :
  ~ is_object data -> status_height data = Raise AttributeError.
Proof.
  intros Hno; destruct data; try reflexivity.
  contradiction Hno; eexists; reflexivity.
Qed.

Section Failures.
Context `{Environment}.

Lemma bind_inv_raise {A B : Type} (m : M A) (k : A -> M B) w e w2 :
  bind m k w = (Raise e, w2) ->
  m w = (Raise e, w2) \/
  exists a w1, m w = (Ok a, w1) /\ k a w1 = (Raise e, w2).
Proof.
  unfold bind; destruct (m w) as [[a | e'] w1]; intros E.
  - right; exists a, w1; split; [reflexivity | exact E].
  - left; injection E as -> ->; reflexivity.
Qed.

Lemma error_status_decide (code : Z) :
  (400 <=? code) && (code <? 600) = false <-> ~ error_status code.
Proof.
  rewrite <- error_status_test.
  destruct ((400 <=? code) && (code <? 600)); split; congruence.
Qed.


Lemma rpc_scan_raises_inv (l : list endpoint) :
  forall height w e w',
    rpc_scan l height w = (Raise e, w') ->
    exists before ep after hs w1,
      l = (before ++ ep :: after)%list /\
      heights_read before w hs w1 /\
      Forall (fun h => h <= 0) hs /\
      get_latest_block_height_rpc (address ep) w1 = (Raise e, w').
Proof.
  induction l as [| ep l IH]; intros height w e w'; cbn [rpc_scan].
  - unfold ret; discriminate.
  - intros Hrun. apply bind_inv_raise in Hrun.
    destruct Hrun as [Hraise | (h & w1 & Hread & Hrun)].
    + exists [], ep, l, [], w.
      split; [reflexivity |]. split; [constructor |].
      split; [constructor | exact Hraise].
    + destruct (h >? 0) eqn:Hpos; [unfold ret in Hrun; discriminate Hrun |].
      destruct (IH _ _ _ _ Hrun)
        as (before & ep' & after & hs & w2 & -> & Hbefore & Hall & Hraise).
      exists (ep :: before), ep', after, (h :: hs), w2.
      split; [reflexivity |].
      split; [econstructor; eassumption |].
      split; [| exact Hraise].
      constructor; [| exact Hall].
      destruct (Z.gtb_spec h 0); [discriminate Hpos | lia].
Qed.

Lemma rpc_scan_raises_intro (before : list endpoint) w hs w1 :
  heights_read before w hs w1 ->
  Forall (fun h => h <= 0) hs ->
  forall ep after e w' height,
    get_latest_block_height_rpc (address ep) w1 = (Raise e, w') ->
    rpc_scan (before ++ ep :: after)%list height w = (Raise e, w').
Proof.
  induction 1 as [w | e0 l w h0 w1 hs w2 Hread _ IH];
    intros Hall ep after e w' height Hraise; cbn [app rpc_scan].
  - erewrite bind_raise; [reflexivity | exact Hraise].
  - erewrite bind_ok; [| exact Hread].
    pose proof (Forall_inv Hall) as Hh; simpl in Hh.
    destruct (h0 >? 0) eqn:Hpos; [apply Z.gtb_lt in Hpos; lia |].
    apply IH; [exact (Forall_inv_tail Hall) | exact Hraise].
Qed.

(** X4.  The scan of the RPC endpoints raises exactly when the reader
    raises on an endpoint that is reached, that is, one before which
    every endpoint returned a height that is not strictly positive; the
    exception is the reader's and the endpoints after it are not
    queried. *)
Theorem rpc_scan_raises (l : list endpoint) (height : Z) (w : World)
    (e : exn) (w' : World) :
  rpc_scan l height w = (Raise e, w') <->
  exists before ep after hs w1,
    l = (before ++ ep :: after)%list /\
    heights_read before w hs w1 /\
    Forall (fun h => h <= 0) hs /\
    get_latest_block_height_rpc (address ep) w1 = (Raise e, w').
Proof.
  split; [apply rpc_scan_raises_inv |].
  intros (before & ep & after & hs & w1 & -> & Hread & Hall & Hraise).
  exact (rpc_scan_raises_intro _ _ _ _ Hread Hall _ _ _ _ _ Hraise).
Qed.

Lemma get_healthy_rest_endpoints_incl l w out w' :
  get_healthy_rest_endpoints l w = (Ok out, w') -> incl out l.
Proof.
  destruct (executor_map_probe l w) as (probed & w1 & Hmap & Hfst).
  unfold get_healthy_rest_endpoints.
  erewrite bind_ok; [| exact Hmap]. unfold ret; intros [= <- <-].
  rewrite <- Hfst. exact (proj2 (capped_selection_sound probed)).
Qed.

Lemma get_healthy_rpc_endpoints_returns l w :
  exists out w', get_healthy_rpc_endpoints l w = (Ok out, w').
Proof.
  destruct (executor_map_probe l w) as (probed & w1 & Hmap & _).
  unfold get_healthy_rpc_endpoints.
  erewrite bind_ok; [| exact Hmap]. eexists; eexists; reflexivity.
Qed.

Lemma get_healthy_rest_endpoints_returns l w :
  exists out w', get_healthy_rest_endpoints l w = (Ok out, w').
Proof.
  destruct (executor_map_probe l w) as (probed & w1 & Hmap & _).
  unfold get_healthy_rest_endpoints.
  erewrite bind_ok; [| exact Hmap]. eexists; eexists; reflexivity.
Qed.

Lemma do_shuffle_returns l w :
  exists l', do_shuffle l w = (Ok l', snd (shuffle l w)) /\ Permutation l' l.
Proof.
  unfold do_shuffle. pose proof (shuffle_permutation l w) as Hperm.
  destruct (shuffle l w) as [l' w']; exists l'; split; [reflexivity | exact Hperm].
Qed.

Lemma do_shuffle_inv l w l' w' :
  do_shuffle l w = (Ok l', w') -> Permutation l' l.
Proof.
  destruct (do_shuffle_returns l w) as (l0 & Hrun & Hperm).
  rewrite Hrun; intros [= <- _]; exact Hperm.
Qed.

(** X5.  On endpoint lists whose entries all carry an address, which is
    what the type [endpoint] holds, the reconciler raises only when the
    chain-height reader raises on one of the RPC endpoints of the
    network: the exception is that one, never a [RequestException], and
    nothing is requested after it.  No answer of a REST endpoint and no
    health check makes it raise.  (On an entry without an address,
    which the type leaves out, lines 33 and 39 raise [KeyError] before
    any request.) *)
Theorem fetch_data_for_network_raises network endpoints network_type w e w' :
  fetch_data_for_network network endpoints network_type w = (Raise e, w') ->
  is_RequestException e = false /\
  exists ep w1,
    In ep (rpc endpoints) /\
    get_latest_block_height_rpc (address ep) w1 = (Raise e, w').
Proof.
  unfold fetch_data_for_network; intros Hrun.
  destruct (get_healthy_rpc_endpoints_returns (rpc endpoints) w)
    as (rpcs & w1 & Hrpc).
  erewrite bind_ok in Hrun; [| exact Hrpc].
  destruct (get_healthy_rest_endpoints_returns (rest endpoints) w1)
    as (rests & w2 & Hrest).
  erewrite bind_ok in Hrun; [| exact Hrest].
  destruct (do_shuffle_returns rpcs w2) as (rpcs' & Hs1 & Hperm).
  erewrite bind_ok in Hrun; [| exact Hs1].
  destruct (do_shuffle_returns rests (snd (shuffle rpcs w2)))
    as (rests' & Hs2 & _).
  erewrite bind_ok in Hrun; [| exact Hs2].
  apply bind_inv_raise in Hrun.
  destruct Hrun as [Hscan | ([height server] & w5 & _ & Hrun)].
  - destruct (rpc_scan_raises_inv _ _ _ _ _ Hscan)
      as (before & ep & after & hs & w4 & Hl & _ & _ & Hraise).
    split.
    + destruct (http_get (address ep ++ "/status") w4) as [[k | r] w6] eqn:Hget.
      * rewrite (reader_failed _ _ _ _ Hget) in Hraise; discriminate Hraise.
      * rewrite (reader_received _ _ _ _ Hget) in Hraise.
        destruct ((400 <=? status_code r) && (status_code r <? 600));
          [discriminate Hraise |].
        destruct (json_body r) as [| data | d]; [discriminate Hraise | |].
        -- destruct (status_height data) as [h | e'] eqn:Hh;
             [discriminate Hraise |].
           injection Hraise as <- _.
           exact (status_height_not_request_exception _ _ Hh).
        -- injection Hraise as <- _.
           apply decoder_exn_not_request_exception.
    + exists ep, w4; split; [| exact Hraise].
      apply (get_healthy_rpc_endpoints_incl _ _ _ _ Hrpc).
      apply (Permutation_in ep Hperm).
      rewrite Hl; apply in_or_app; right; left; reflexivity.
  - destruct (do_shuffle_returns rests' w5) as (rests'' & Hs3 & _).
    erewrite bind_ok in Hrun; [| exact Hs3].
    destruct (rest_loop_total (List.length rests'') height rests'' 0%nat
                (snd (shuffle rests' w5))) as (vars & w7 & Hloop & _).
    erewrite bind_ok in Hrun; [| exact Hloop].
    destruct vars as [[uh uv] src]; discriminate Hrun.
Qed.

End Failures.


Lemma rpc_scan_raises_witness :
  @rpc_scan rpc_network
    [ep "https://rpc.c"; ep "https://rpc.a"; ep "https://rpc.d";
     ep "https://rpc.b"] (-1) [] =
    (Raise ValueError,
     ["https://rpc.c/status"; "https://rpc.a/status"; "https://rpc.d/status"]).
Proof.
  apply (proj2 (@rpc_scan_raises rpc_network _ _ _ _ _)).
  exists [ep "https://rpc.c"; ep "https://rpc.a"], (ep "https://rpc.d"),
         [ep "https://rpc.b"], [-1; 0],
         ["https://rpc.c/status"; "https://rpc.a/status"].
  split; [reflexivity |].
  split; [exact heights_read_c_a |].
  split; [repeat constructor; lia | reflexivity].
Defined.

Lemma fetch_data_for_network_raises_witness :
  is_RequestException ValueError = false /\
  exists e w1,
    In e [ep "https://rpc.a"; ep "https://rpc.d"] /\
    @get_latest_block_height_rpc rpc_network (address e) w1 =
      (Raise ValueError,
       ["https://rpc.a/health"; "https://rpc.d/health";
        "https://rpc.a/status"; "https://rpc.d/status"]).
Proof.
  exact (@fetch_data_for_network_raises rpc_network "osmosis"
           {| rest := []; rpc := [ep "https://rpc.a"; ep "https://rpc.d"] |}
           "mainnet" [] ValueError _ eq_refl).
Defined.

(** ** What a record says about where its data came from *)

Lemma marked_healthy_none (l : list endpoint) (verdicts : list bool) :
  Forall (fun b => b = false) verdicts -> marked_healthy l verdicts = [].
Proof.
  unfold marked_healthy. intros Hall; revert l.
  induction Hall as [| b bs Hb _ IH]; intros [| e l]; try reflexivity.
  cbn [combine filter snd]. rewrite Hb. apply IH.
Qed.

Section Provenance.
Context `{Environment}.

Lemma rpc_scan_result (l : list endpoint) :
  forall height w h server w',
    height <= 0 ->
    rpc_scan l height w = (Ok (h, server), w') ->
    (h > 0 /\ exists e, In e l /\ server = address e) \/
    (h <= 0 /\ server = "").
Proof.
  induction l as [| e l IH]; intros height w h server w' Hle; cbn [rpc_scan].
  - unfold ret; intros [= <- <- _]; right; split; [exact Hle | reflexivity].
  - intros Hrun. apply bind_inv_ok in Hrun.
    destruct Hrun as (h1 & w1 & _ & Hrun).
    destruct (h1 >? 0) eqn:Hpos.
    + unfold ret in Hrun; injection Hrun as <- <- _.
      apply Z.gtb_lt in Hpos. left; split; [lia |].
      exists e; split; [left; reflexivity | reflexivity].
    + assert (Hle1 : h1 <= 0)
        by (destruct (Z.gtb_spec h1 0); [discriminate Hpos | lia]).
      destruct (IH _ _ _ _ _ Hle1 Hrun) as [[Hh (e' & Hin & ->)] | Hnone].
      * left; split; [exact Hh |].
        exists e'; split; [right; exact Hin | reflexivity].
      * right; exact Hnone.
Qed.

Lemma rest_loop_source total height (l : list endpoint) :
  forall index w vars w',
    rest_loop total height index l w = (Ok vars, w') ->
    vars = no_upgrade \/
    exists e w1 active current,
      In e l /\ blacklisted (address e) = false /\
      query_both (address e) w1 = (Ok (active, current), w') /\
      choose active current height = Break vars.
Proof.
  induction l as [| e l IH]; intros index w vars w'; cbn [rest_loop].
  - unfold ret; intros [= <- _]; left; reflexivity.
  - intros Hrun. apply bind_inv_ok in Hrun.
    destruct Hrun as (outcome & w1 & Hit & Hrun).
    unfold rest_iteration in Hit.
    destruct (blacklisted (address e)) eqn:Hb.
    + unfold ret in Hit; injection Hit as <- <-.
      destruct (IH _ _ _ _ Hrun) as [-> | (e' & w2 & a & c & Hin & Hrest)];
        [left; reflexivity |].
      right; exists e', w2, a, c; split; [right; exact Hin | exact Hrest].
    + destruct (query_both (address e) w) as [[[active current] | x] w2] eqn:Hq.
      * injection Hit as <- <-.
        destruct (choose active current height) as [vars' |] eqn:Hch.
        -- unfold ret in Hrun; injection Hrun as <- <-.
           right; exists e, w, active, current.
           split; [left; reflexivity |].
           split; [exact Hb | split; [exact Hq | exact Hch]].
        -- destruct (IH _ _ _ _ Hrun)
             as [-> | (e' & w3 & a & c & Hin & Hrest)]; [left; reflexivity |].
           right; exists e', w3, a, c; split; [right; exact Hin | exact Hrest].
      * destruct (index + 1 <? total)%nat; injection Hit as <- <-.
        -- destruct (IH _ _ _ _ Hrun)
             as [-> | (e' & w3 & a & c & Hin & Hrest)]; [left; reflexivity |].
           right; exists e', w3, a, c; split; [right; exact Hin | exact Hrest].
        -- unfold ret in Hrun; injection Hrun as <- _; left; reflexivity.
Qed.

(** X6.  A record repeats the network name and type it was asked for.
    When its [latest_block_height] is strictly positive, its
    [rpc_server] is the address of one of the RPC endpoints of the
    network; otherwise its [rpc_server] is the empty string. *)
Theorem network_result_rpc_fields name endpoints kind w r w' :
  fetch_data_for_network name endpoints kind w = (Ok r, w') ->
  type r = kind /\
  network r = name /\
  ((latest_block_height r > 0 /\
    exists e, In e (rpc endpoints) /\ rpc_server r = address e) \/
   (latest_block_height r <= 0 /\ rpc_server r = "")).
Proof.
  unfold fetch_data_for_network; intros Hrun.
  apply bind_inv_ok in Hrun; destruct Hrun as (rpcs & w1 & Hprobe & Hrun).
  apply bind_inv_ok in Hrun; destruct Hrun as (rests & w2 & _ & Hrun).
  apply bind_inv_ok in Hrun; destruct Hrun as (rpcs' & w3 & Hshuffle & Hrun).
  apply bind_inv_ok in Hrun; destruct Hrun as (rests' & w4 & _ & Hrun).
  apply bind_inv_ok in Hrun;
    destruct Hrun as ([height server] & w5 & Hscan & Hrun).
  apply bind_inv_ok in Hrun; destruct Hrun as (rests'' & w6 & _ & Hrun).
  apply bind_inv_ok in Hrun;
    destruct Hrun as ([[uh uv] src] & w7 & _ & Hrun).
  unfold ret in Hrun; injection Hrun as <- <-; cbn.
  split; [reflexivity | split; [reflexivity |]].
  assert (Hstart : -1 <= 0) by lia.
  destruct (rpc_scan_result _ _ _ _ _ _ Hstart Hscan)
    as [[Hpos (e & Hin & ->)] | Hnone]; [left | right; exact Hnone].
  split; [exact Hpos |]. exists e; split; [| reflexivity].
  apply (get_healthy_rpc_endpoints_incl _ _ _ _ Hprobe).
  exact (Permutation_in e (do_shuffle_inv _ _ _ _ Hshuffle) Hin).
Qed.

Lemma do_shuffle_nil w : do_shuffle [] w = (Ok [], snd (shuffle [] w)).
Proof.
  destruct (do_shuffle_returns [] w) as (l' & Hrun & Hperm).
  apply Permutation_sym, Permutation_nil in Hperm; subst l'. exact Hrun.
Qed.

Lemma get_healthy_none (l : list endpoint) w verdicts w' :
  probes_read l w verdicts w' ->
  Forall (fun b => b = false) verdicts ->
  get_healthy_rpc_endpoints l w = (Ok [], w') /\
  get_healthy_rest_endpoints l w = (Ok [], w').
Proof.
  intros Hread Hall.
  pose proof (executor_map_probes_read _ _ _ _ Hread) as Hmap.
  pose proof (marked_healthy_none l verdicts Hall) as Hnone.
  unfold marked_healthy in Hnone.
  unfold get_healthy_rpc_endpoints, get_healthy_rest_endpoints.
  split; (erewrite bind_ok; [| exact Hmap]); cbv zeta; rewrite Hnone;
    reflexivity.
Qed.

(** X7.  When the health check marks no RPC endpoint and no REST endpoint
    of a network healthy, the reconciler returns the record with
    [latest_block_height = -1], no RPC server and no upgrade, and after
    the health checks it makes no request: the world it leaves is the one
    the health checks left, passed through the three shuffles of an
    empty list. *)
Theorem no_healthy_endpoint name endpoints kind w rpc_verdicts w1
    rest_verdicts w2 :
  probes_read (rpc endpoints) w rpc_verdicts w1 ->
  Forall (fun b => b = false) rpc_verdicts ->
  probes_read (rest endpoints) w1 rest_verdicts w2 ->
  Forall (fun b => b = false) rest_verdicts ->
  fetch_data_for_network name endpoints kind w =
    (Ok {| type := kind;
           network := name;
           upgrade_found := false;
           latest_block_height := -1;
           upgrade_block_height := None;
           version := "";
           rpc_server := "";
           source := "" |},
     snd (shuffle [] (snd (shuffle [] (snd (shuffle [] w2)))))).
Proof.
  intros Hrpc Hrpc_none Hrest Hrest_none.
  unfold fetch_data_for_network.
  erewrite bind_ok; [| exact (proj1 (get_healthy_none _ _ _ _ Hrpc Hrpc_none))].
  erewrite bind_ok;
    [| exact (proj2 (get_healthy_none _ _ _ _ Hrest Hrest_none))].
  erewrite bind_ok; [| apply do_shuffle_nil].
  erewrite bind_ok; [| apply do_shuffle_nil].
  cbn [rpc_scan]. erewrite bind_ok; [| reflexivity]. cbv beta iota.
  erewrite bind_ok; [| apply do_shuffle_nil].
  reflexivity.
Qed.

(** X8.  When a record reports an upgrade, its version, height and
    source are what lines 230-240 chose from the two answers of one REST
    endpoint of the network, an endpoint that is not on the blacklist and
    whose two queries both returned; that pair of queries is the last
    thing the reconciler requested. *)
Theorem upgrade_provenance name endpoints kind w r w' :
  fetch_data_for_network name endpoints kind w = (Ok r, w') ->
  upgrade_found r = true ->
  exists e w1 active current,
    In e (rest endpoints) /\
    blacklisted (address e) = false /\
    query_both (address e) w1 = (Ok (active, current), w') /\
    choose active current (latest_block_height r) =
      Break (upgrade_block_height r, version r, source r).
Proof.
  unfold fetch_data_for_network; intros Hrun Hfound.
  apply bind_inv_ok in Hrun; destruct Hrun as (rpcs & w1 & _ & Hrun).
  apply bind_inv_ok in Hrun; destruct Hrun as (rests & w2 & Hprobe & Hrun).
  apply bind_inv_ok in Hrun; destruct Hrun as (rpcs' & w3 & _ & Hrun).
  apply bind_inv_ok in Hrun; destruct Hrun as (rests' & w4 & Hs1 & Hrun).
  apply bind_inv_ok in Hrun;
    destruct Hrun as ([height server] & w5 & _ & Hrun).
  apply bind_inv_ok in Hrun; destruct Hrun as (rests'' & w6 & Hs2 & Hrun).
  apply bind_inv_ok in Hrun;
    destruct Hrun as ([[uh uv] src] & w7 & Hloop & Hrun).
  unfold ret in Hrun; injection Hrun as <- <-; cbn in *.
  destruct (rest_loop_source _ _ _ _ _ _ _ Hloop)
    as [Hnone | (e & w8 & active & current & Hin & Hb & Hq & Hch)].
  - injection Hnone as -> -> ->; discriminate Hfound.
  - exists e, w8, active, current.
    split; [| split; [exact Hb | split; [exact Hq | exact Hch]]].
    apply (get_healthy_rest_endpoints_incl _ _ _ _ Hprobe).
    apply (Permutation_in e (do_shuffle_inv _ _ _ _ Hs1)).
    exact (Permutation_in e (do_shuffle_inv _ _ _ _ Hs2) Hin).
Qed.

End Provenance.

Lemma network_result_rpc_fields_witness :
  type osmosis_result = "mainnet" /\
  network osmosis_result = "osmosis" /\
  ((latest_block_height osmosis_result > 0 /\
    exists e, In e (rpc osmosis_endpoints) /\
              rpc_server osmosis_result = address e) \/
   (latest_block_height osmosis_result <= 0 /\
    rpc_server osmosis_result = "")).
Proof.
  exact (@network_result_rpc_fields upgrade_network "osmosis"
           osmosis_endpoints "mainnet" [] osmosis_result osmosis_requests
           osmosis_run).
Defined.

Lemma upgrade_provenance_witness :
  exists e w1 active current,
    In e (rest osmosis_endpoints) /\
    blacklisted (address e) = false /\
    @query_both upgrade_network (address e) w1 =
      (Ok (active, current), osmosis_requests) /\
    choose active current (latest_block_height osmosis_result) =
      Break (upgrade_block_height osmosis_result, version osmosis_result,
             source osmosis_result).
Proof.
  exact (@upgrade_provenance upgrade_network "osmosis" osmosis_endpoints
           "mainnet" [] osmosis_result osmosis_requests osmosis_run eq_refl).
Defined.

Lemma no_healthy_endpoint_witness :
  @fetch_data_for_network upgrade_network "juno"
    {| rest := [ep "https://rest.z"; ep "https://rest.y"];
       rpc := [ep "https://rpc.z"] |} "testnet" [] =
    (Ok {| type := "testnet";
           network := "juno";
           upgrade_found := false;
           latest_block_height := -1;
           upgrade_block_height := None;
           version := "";
           rpc_server := "";
           source := "" |},
     ["https://rpc.z/health"; "https://rest.z/health"; "https://rest.y/health"]).
Proof.
  apply (@no_healthy_endpoint upgrade_network "juno"
           {| rest := [ep "https://rest.z"; ep "https://rest.y"];
              rpc := [ep "https://rpc.z"] |} "testnet" []
           [false] ["https://rpc.z/health"] [false; false]).
  - eapply probes_read_cons; [reflexivity | apply probes_read_nil].
  - repeat constructor.
  - eapply probes_read_cons; [reflexivity |].
    eapply probes_read_cons; [reflexivity | apply probes_read_nil].
  - repeat constructor.
Defined.

(** ** The loop over the REST endpoints *)

Section RestLoop.
Context `{Environment}.

(** One turn of the loop, when [index] and [total] count the endpoints
    as [enumerate] and [len] do. *)
Lemma rest_loop_step total height index e l w :
  (index + S (List.length l) = total)%nat ->
  rest_loop total height index (e :: l) w =
    if blacklisted (address e) then rest_loop total height (S index) l w
    else
      match query_both (address e) w with
      | (Raise _, w') => rest_loop total height (S index) l w'
      | (Ok (active, current), w') =>
          match choose active current height with
          | Break vars => (Ok vars, w')
          | Continue => rest_loop total height (S index) l w'
          end
      end.
Proof.
  intros Hcount. cbn [rest_loop]. unfold bind at 1, rest_iteration.
  destruct (blacklisted (address e)); [reflexivity |].
  destruct (query_both (address e) w) as [[[active current] | x] w'].
  - destruct (choose active current height); reflexivity.
  - destruct (index + 1 <? total)%nat eqn:Hlast; [reflexivity |].
    apply Nat.ltb_ge in Hlast.
    destruct l as [| e' l]; [reflexivity | simpl in Hcount; lia].
Qed.

Lemma rest_loop_without_blacklisted height (l : list endpoint) :
  forall total index total' index' w,
    (index + List.length l = total)%nat ->
    (index' +
     List.length (filter (fun e => negb (blacklisted (address e))) l) =
     total')%nat ->
    rest_loop total height index l w =
      rest_loop total' height index'
        (filter (fun e => negb (blacklisted (address e))) l) w.
Proof.
  induction l as [| e l IH]; intros total index total' index' w Hc Hc';
    [reflexivity |].
  cbn [List.length] in Hc.
  rewrite (rest_loop_step total height index e l w) by lia.
  cbn [filter] in Hc' |- *.
  destruct (blacklisted (address e)) eqn:Hb; cbn [negb] in Hc' |- *.
  - apply IH; lia.
  - cbn [List.length] in Hc'.
    rewrite (rest_loop_step total' height index' e _ w) by lia.
    rewrite Hb.
    destruct (query_both (address e) w) as [[[active current] | x] w'].
    + destruct (choose active current height); [reflexivity |].
      apply IH; lia.
    + apply IH; lia.
Qed.

(** X9.  Endpoints on the blacklist are never queried and count for
    nothing: the loop over a list of REST endpoints gives the result, and
    leaves the world, that the loop over the list without its
    blacklisted endpoints gives. *)
Theorem blacklisted_endpoints_ignored height (l : list endpoint) (w : World) :
  rest_loop (List.length l) height 0 l w =
    rest_loop
      (List.length (filter (fun e => negb (blacklisted (address e))) l))
      height 0
      (filter (fun e => negb (blacklisted (address e))) l) w.
Proof. apply rest_loop_without_blacklisted; reflexivity. Qed.

(** X10.  An endpoint one of whose two queries raises is passed over as
    a whole, and the loop goes on with the endpoints after it.  When the
    active-proposals query raises, the current-plan query is not made.
    When the current-plan query raises, the answer the active-proposals
    query had returned is dropped, usable or not. *)
Theorem failed_query_skips_endpoint total height index e l w :
  blacklisted (address e) = false ->
  (index + S (List.length l) = total)%nat ->
  (forall x w1,
      fetch_active_upgrade_proposals (address e) w = (Raise x, w1) ->
      rest_loop total height index (e :: l) w =
        rest_loop total height (S index) l w1) /\
  (forall active w1 x w2,
      fetch_active_upgrade_proposals (address e) w = (Ok active, w1) ->
      fetch_current_upgrade_plan (address e) w1 = (Raise x, w2) ->
      rest_loop total height index (e :: l) w =
        rest_loop total height (S index) l w2).
Proof.
  intros Hb Hcount.
  rewrite (rest_loop_step total height index e l w Hcount), Hb.
  unfold query_both. split.
  - intros x w1 Hactive.
    erewrite bind_raise; [reflexivity | exact Hactive].
  - intros active w1 x w2 Hactive Hcurrent.
    erewrite bind_ok; [| exact Hactive].
    erewrite bind_raise; [reflexivity | exact Hcurrent].
Qed.

End RestLoop.

Lemma failed_query_skips_endpoint_witness :
  @fetch_active_upgrade_proposals flaky_network "https://rest.f" [] =
    (Ok (Some "5.0", Some 1000), ["https://rest.f" ++ proposals_path]) /\
  @rest_loop flaky_network 2 800 0 [ep "https://rest.f"; ep "https://rest.b"] []
    = (Ok (Some 900, "3.2", "current_upgrade_plan"),
       [ "https://rest.f" ++ proposals_path;
         "https://rest.f" ++ current_plan_path;
         "https://rest.b" ++ proposals_path;
         "https://rest.b" ++ current_plan_path ]) /\
  @rest_loop flaky_network 2 800 0 [ep "https://rest.x"; ep "https://rest.b"] []
    = (Ok (Some 900, "3.2", "current_upgrade_plan"),
       [ "https://rest.x" ++ proposals_path;
         "https://rest.b" ++ proposals_path;
         "https://rest.b" ++ current_plan_path ]).
Proof.
  split; [reflexivity |]. split.
  - destruct (@failed_query_skips_endpoint flaky_network 2 800 0%nat
                (ep "https://rest.f") [ep "https://rest.b"] [] eq_refl eq_refl)
      as [_ Tcurrent].
    rewrite (Tcurrent (Some "5.0", Some 1000) _ (RequestException HTTPError) _
               eq_refl eq_refl).
    reflexivity.
  - destruct (@failed_query_skips_endpoint flaky_network 2 800 0%nat
                (ep "https://rest.x") [ep "https://rest.b"] [] eq_refl eq_refl)
      as [Tactive _].
    rewrite (Tactive (RequestException ConnectionError) _ eq_refl).
    reflexivity.
Defined.

(** ** The two upgrade readers *)

Lemma select_version_shape (name description v : string) :
  select_version (search name) (search description) = Some v ->
  version_shape v.
Proof.
  assert (Hs : forall s g, search s = Some g -> version_shape g).
  { intros s g Hg.
    destruct (search_first_match s g Hg) as (_ & _ & _ & Hshape & _).
    exact Hshape. }
  unfold select_version.
  destruct (search name) as [p |] eqn:Hp,
           (search description) as [d |] eqn:Hd; try discriminate.
  - destruct (String.length d <? String.length p)%nat; intros [= <-];
      [exact (Hs _ _ Hp) | exact (Hs _ _ Hd)].
  - intros [= <-]; exact (Hs _ _ Hp).
  - intros [= <-]; exact (Hs _ _ Hd).
Qed.

Lemma py_search_inv (x : json) (m : option string) :
  py_search x = Ok m -> exists s, x = JStr s /\ m = search s.
Proof.
  destruct x; simpl; try discriminate.
  intros [= <-]; eexists; split; reflexivity.
Qed.

Ltac split_rbind H :=
  match type of H with
  | rbind ?r _ = Ok _ =>
      destruct r eqn:?; cbn [rbind] in H; [cbv zeta in H | discriminate H]
  end.

Lemma examine_proposal_shape (p : json) (v : string) (h : Z) :
  examine_proposal p = Ok (Some (v, h)) -> version_shape v.
Proof.
  unfold examine_proposal; intros Hex.
  split_rbind Hex. split_rbind Hex.
  destruct (eq_str _ _); [| discriminate Hex].
  repeat split_rbind Hex.
  repeat match goal with
         | Hs : py_search _ = Ok _ |- _ =>
             apply py_search_inv in Hs; destruct Hs as (? & -> & ->)
         end.
  match type of Hex with
  | context [select_version ?a ?b] =>
      destruct (select_version a b) as [v0 |] eqn:Hv; [| discriminate Hex]
  end.
  destruct (version_truthy (Some v0)); [| discriminate Hex].
  injection Hex as <- _. exact (select_version_shape _ _ _ Hv).
Qed.

Lemma scan_proposals_paired (proposals : list json) answer :
  scan_proposals proposals = Ok answer -> well_paired answer.
Proof.
  induction proposals as [| p l IH]; cbn [scan_proposals].
  - intros [= <-]; left; reflexivity.
  - intros Hscan. split_rbind Hscan.
    match goal with
    | Hp : examine_proposal p = Ok ?a |- _ => destruct a as [[v h] |]
    end.
    + injection Hscan as <-. right; exists v, h; split; [reflexivity |].
      eapply examine_proposal_shape; eassumption.
    + exact (IH Hscan).
Qed.

Lemma read_proposals_paired (data : json) answer :
  read_proposals data = Ok answer -> well_paired answer.
Proof.
  unfold read_proposals; intros Hread.
  split_rbind Hread. split_rbind Hread.
  exact (scan_proposals_paired _ _ Hread).
Qed.

Lemma read_plan_paired (data : json) answer :
  read_plan data = Ok answer -> well_paired answer.
Proof.
  unfold read_plan; intros Hread.
  split_rbind Hread.
  destruct (truthy _); [| injection Hread as <-; left; reflexivity].
  split_rbind Hread. split_rbind Hread.
  match goal with
  | Hs : py_search _ = Ok _ |- _ =>
      apply py_search_inv in Hs; destruct Hs as (n & -> & ->)
  end.
  destruct (search n) as [v |] eqn:Hv;
    [| injection Hread as <-; left; reflexivity].
  split_rbind Hread. split_rbind Hread.
  injection Hread as <-. right; eexists; eexists; split; [reflexivity |].
  destruct (search_first_match n v Hv) as (_ & _ & _ & Hshape & _).
  exact Hshape.
Qed.

Section CurrentPlan.
Context `{Environment}.

Lemma fetch_current_failed rest_url w k w' :
  http_get (rest_url ++ current_plan_path) w = (Failed k, w') ->
  fetch_current_upgrade_plan rest_url w = (Raise (RequestException k), w').
Proof.
  intros Hget. unfold fetch_current_upgrade_plan.
  rewrite !try_except_reraise. unfold bind, requests_get.
  fold current_plan_path; rewrite Hget; reflexivity.
Qed.

Lemma fetch_current_received rest_url w r w' :
  http_get (rest_url ++ current_plan_path) w = (Received r, w') ->
  fetch_current_upgrade_plan rest_url w =
    if (400 <=? status_code r) && (status_code r <? 600)
    then (Raise (RequestException HTTPError), w')
    else
      match json_body r with
      | NotJSON => (Raise (RequestException JSONDecodeError), w')
      | Decoded data => (read_plan data, w')
      | Undecodable d => (Raise (decoder_exn d), w')
      end.
Proof.
  intros Hget. unfold fetch_current_upgrade_plan.
  rewrite !try_except_reraise. unfold bind, requests_get.
  fold current_plan_path; rewrite Hget.
  unfold raise_for_status.
  destruct ((400 <=? status_code r) && (status_code r <? 600));
    [reflexivity |].
  unfold response_json, lift.
  destruct (json_body r) as [| data | d]; unfold ret, raise;
    [reflexivity | | reflexivity].
  fold (read_plan data). destruct (read_plan data); reflexivity.
Qed.

(** X11.  Whatever the server answers, an answer the active-proposals
    reader or the current-plan reader returns is either [(None, None)] or
    a version together with a height, the version being one to three
    dot-separated groups of digits: neither reader returns a version
    without a height, a height without a version, or an empty version. *)
Theorem upgrade_readers_well_paired (rest_url : string) (w : World) :
  (forall answer w',
      fetch_active_upgrade_proposals rest_url w = (Ok answer, w') ->
      well_paired answer) /\
  (forall answer w',
      fetch_current_upgrade_plan rest_url w = (Ok answer, w') ->
      well_paired answer).
Proof.
  split; intros answer w' Hrun.
  - destruct (http_get (rest_url ++ proposals_path) w) as [[k | r] w1] eqn:Hget.
    + rewrite (fetch_active_failed _ _ _ _ Hget) in Hrun; discriminate Hrun.
    + rewrite (fetch_active_received _ _ _ _ Hget) in Hrun.
      destruct (status_code r =? 501);
        [injection Hrun as <- _; left; reflexivity |].
      destruct ((400 <=? status_code r) && (status_code r <? 600));
        [discriminate Hrun |].
      destruct (json_body r) as [| data | d]; try discriminate Hrun.
      destruct (read_proposals data) as [a |] eqn:Hread; [| discriminate Hrun].
      injection Hrun as <- _. exact (read_proposals_paired _ _ Hread).
  - destruct (http_get (rest_url ++ current_plan_path) w)
      as [[k | r] w1] eqn:Hget.
    + rewrite (fetch_current_failed _ _ _ _ Hget) in Hrun; discriminate Hrun.
    + rewrite (fetch_current_received _ _ _ _ Hget) in Hrun.
      destruct ((400 <=? status_code r) && (status_code r <? 600));
        [discriminate Hrun |].
      destruct (json_body r) as [| data | d]; try discriminate Hrun.
      destruct (read_plan data) as [a |] eqn:Hread; [| discriminate Hrun].
      injection Hrun as <- _. exact (read_plan_paired _ _ Hread).
Qed.

(** X12.  The current-plan reader has no tolerated status.  Every error
    status raises [HTTPError], 501 included, which the active-proposals
    reader answers with [(None, None)]; a request that fails in transport
    raises the exception of that failure, and a body that is not JSON
    raises [JSONDecodeError]. *)
Theorem fetch_current_upgrade_plan_failures (rest_url : string) (w : World) :
  (forall k w',
      http_get (rest_url ++ current_plan_path) w = (Failed k, w') ->
      fetch_current_upgrade_plan rest_url w =
        (Raise (RequestException k), w')) /\
  (forall r w',
      http_get (rest_url ++ current_plan_path) w = (Received r, w') ->
      error_status (status_code r) ->
      fetch_current_upgrade_plan rest_url w =
        (Raise (RequestException HTTPError), w')) /\
  (forall r w',
      http_get (rest_url ++ current_plan_path) w = (Received r, w') ->
      status_code r = 501 ->
      fetch_current_upgrade_plan rest_url w =
        (Raise (RequestException HTTPError), w')) /\
  (forall r w',
      http_get (rest_url ++ current_plan_path) w = (Received r, w') ->
      ~ error_status (status_code r) ->
      json_body r = NotJSON ->
      fetch_current_upgrade_plan rest_url w =
        (Raise (RequestException JSONDecodeError), w')).
Proof.
  split; [intros k w'; apply fetch_current_failed |].
  split; [| split].
  - intros r w' Hget Herr. rewrite (fetch_current_received _ _ _ _ Hget).
    apply error_status_test in Herr; rewrite Herr; reflexivity.
  - intros r w' Hget Hst. rewrite (fetch_current_received _ _ _ _ Hget), Hst.
    reflexivity.
  - intros r w' Hget Hst Hbody. rewrite (fetch_current_received _ _ _ _ Hget).
    apply error_status_decide in Hst; rewrite Hst, Hbody; reflexivity.
Qed.

(** X13.  On a response with a status that is not an error and a JSON
    object as body, the current-plan reader goes by the [plan] member.
    A plan that is missing, [null] or empty gives [(None, None)].  So
    does a plan in whose name no version is found, and then its height is
    not looked at.  When a version is found, it is returned with the
    height of the plan, 0 when the height is missing or is a text [int]
    rejects; a height [int] cannot take at all, such as [null], makes the
    reader raise. *)
Theorem fetch_current_upgrade_plan_answer rest_url w r w' data plan :
  http_get (rest_url ++ current_plan_path) w = (Received r, w') ->
  ~ error_status (status_code r) ->
  json_body r = Decoded data ->
  dict_get data "plan" (JDict []) = Ok plan ->
  (truthy plan = false ->
   fetch_current_upgrade_plan rest_url w = (Ok (None, None), w')) /\
  (forall name,
      truthy plan = true ->
      dict_get plan "name" (JStr "") = Ok (JStr name) ->
      (search name = None ->
       fetch_current_upgrade_plan rest_url w = (Ok (None, None), w')) /\
      (forall v height_field,
          search name = Some v ->
          dict_get plan "height" (JInt 0) = Ok height_field ->
          (forall h, height_read height_field h ->
                     fetch_current_upgrade_plan rest_url w =
                       (Ok (Some v, Some h), w')) /\
          (forall e, py_int height_field = Raise e -> e <> ValueError ->
                     fetch_current_upgrade_plan rest_url w = (Raise e, w')))).
Proof.
  intros Hget Hst Hbody Hplan.
  rewrite (fetch_current_received _ _ _ _ Hget).
  apply error_status_decide in Hst; rewrite Hst, Hbody.
  unfold read_plan; rewrite Hplan; cbn [rbind].
  split; [intros ->; reflexivity |].
  intros name -> Hname. rewrite Hname; cbn [rbind py_search].
  split; [intros ->; reflexivity |].
  intros v hf -> Hhf. rewrite Hhf; cbn [rbind]. split.
  - intros h Hread. rewrite (int_or_zero_read _ _ Hread); reflexivity.
  - intros e Hraise Hne. unfold int_or_zero; rewrite Hraise.
    destruct e; try reflexivity. contradiction Hne; reflexivity.
Qed.

End CurrentPlan.

Lemma upgrade_readers_well_paired_witness :
  well_paired (Some "5.0", Some 1000) /\ well_paired (Some "3.2", Some 900).
Proof.
  split.
  - exact (proj1 (@upgrade_readers_well_paired flaky_network
                    "https://rest.f" []) _ _ eq_refl).
  - exact (proj2 (@upgrade_readers_well_paired flaky_network
                    "https://rest.b" []) _ _ eq_refl).
Defined.

Lemma fetch_current_upgrade_plan_failures_witness :
  @fetch_current_upgrade_plan flaky_network "https://rest.h" [] =
    (Raise (RequestException HTTPError),
     ["https://rest.h" ++ current_plan_path]) /\
  @fetch_active_upgrade_proposals flaky_network "https://rest.b" [] =
    (Ok (None, None), ["https://rest.b" ++ proposals_path]) /\
  @fetch_current_upgrade_plan flaky_network "https://rest.x" [] =
    (Raise (RequestException ConnectionError),
     ["https://rest.x" ++ current_plan_path]).
Proof.
  split; [| split; [reflexivity |]].
  - destruct (@fetch_current_upgrade_plan_failures flaky_network
                "https://rest.h" []) as (_ & _ & T501 & _).
    exact (T501 _ _ eq_refl eq_refl).
  - destruct (@fetch_current_upgrade_plan_failures flaky_network
                "https://rest.x" []) as (Tfailed & _).
    exact (Tfailed ConnectionError _ eq_refl).
Defined.

Lemma fetch_current_upgrade_plan_answer_witness :
  @fetch_current_upgrade_plan flaky_network "https://rest.g" [] =
    (Ok (Some "4", Some 0), ["https://rest.g" ++ current_plan_path]) /\
  @fetch_current_upgrade_plan flaky_network "https://rest.i" [] =
    (Ok (None, None), ["https://rest.i" ++ current_plan_path]) /\
  @fetch_current_upgrade_plan upgrade_network "https://rest.a" [] =
    (Ok (None, None), ["https://rest.a" ++ current_plan_path]).
Proof.
  assert (Hok : ~ error_status 200) by (unfold error_status; lia).
  split; [| split].
  - destruct (@fetch_current_upgrade_plan_answer flaky_network
                "https://rest.g" [] _ _ _
                (JDict [("name", JStr "v4-rc1"); ("height", JStr "")])
                eq_refl Hok eq_refl eq_refl) as [_ Tplan].
    destruct (Tplan "v4-rc1" eq_refl eq_refl) as [_ Tversion].
    destruct (Tversion "4" (JStr "") eq_refl eq_refl) as [Theight _].
    apply Theight. right; split; reflexivity.
  - destruct (@fetch_current_upgrade_plan_answer flaky_network
                "https://rest.i" [] _ _ _
                (JDict [("name", JStr "Vega"); ("height", JNull)])
                eq_refl Hok eq_refl eq_refl) as [_ Tplan].
    destruct (Tplan "Vega" eq_refl eq_refl) as [Tnone _].
    apply Tnone; reflexivity.
  - destruct (@fetch_current_upgrade_plan_answer upgrade_network
                "https://rest.a" [] _ _ _ JNull
                eq_refl Hok eq_refl eq_refl) as [Tfalsy _].
    apply Tfalsy; reflexivity.
Defined.

(** ** More on the final sort *)

Lemma filter_partition_permutation {A : Type} (f : A -> bool) (l : list A) :
  Permutation (filter f l ++ filter (fun x => negb (f x)) l)%list l.
Proof.
  induction l as [| x l IH]; simpl; [constructor |].
  destruct (f x); simpl.
  - constructor; exact IH.
  - apply Permutation_sym, Permutation_cons_app, Permutation_sym; exact IH.
Qed.

Lemma filter_keeps_all {A : Type} (f : A -> bool) (l : list A) :
  Forall (fun x => f x = true) l -> filter f l = l.
Proof.
  induction 1 as [| x l Hx _ IH]; simpl; [reflexivity |].
  rewrite Hx, IH; reflexivity.
Qed.

Lemma filter_drops_all {A : Type} (f : A -> bool) (l : list A) :
  Forall (fun x => f x = false) l -> filter f l = [].
Proof.
  induction 1 as [| x l Hx _ IH]; simpl; [reflexivity |].
  rewrite Hx; exact IH.
Qed.

Lemma sort_results_unfold (results : list NetworkResult) :
  sort_results results =
    (filter upgrade_found results ++
     filter (fun r => negb (upgrade_found r)) results)%list.
Proof. apply sorted_reverse_partition. Qed.

(** X14.  The final sort loses and duplicates nothing: the sorted list
    is a permutation of the list of results.  Sorting a sorted list
    changes nothing, and a list in which every record has the same
    [upgrade_found] comes back in the order it had. *)
Theorem sort_results_permutation (results : list NetworkResult) :
  Permutation (sort_results results) results /\
  List.length (sort_results results) = List.length results /\
  sort_results (sort_results results) = sort_results results /\
  (forall b, Forall (fun r => upgrade_found r = b) results ->
             sort_results results = results).
Proof.
  rewrite !sort_results_unfold.
  pose proof (filter_partition_permutation upgrade_found results) as Hperm.
  pose proof (filter_all_true upgrade_found results) as Hfound.
  pose proof (filter_all_true (fun r => negb (upgrade_found r)) results)
    as Hothers.
  split; [exact Hperm |].
  split; [exact (Permutation_length Hperm) |].
  split.
  - rewrite !filter_app.
    rewrite (filter_keeps_all _ _ Hfound), (filter_keeps_all _ _ Hothers).
    rewrite (filter_drops_all upgrade_found
               (filter (fun r => negb (upgrade_found r)) results)).
    2:{ eapply Forall_impl; [| exact Hothers].
        intros r Hr; simpl in Hr; destruct (upgrade_found r);
          [discriminate Hr | reflexivity]. }
    rewrite (filter_drops_all (fun r => negb (upgrade_found r))
               (filter upgrade_found results)).
    2:{ eapply Forall_impl; [| exact Hfound].
        intros r Hr; simpl in Hr; rewrite Hr; reflexivity. }
    rewrite app_nil_r; reflexivity.
  - intros [|] Hall.
    + rewrite (filter_keeps_all _ _ Hall).
      rewrite (filter_drops_all (fun r => negb (upgrade_found r)) results).
      * apply app_nil_r.
      * eapply Forall_impl; [| exact Hall].
        intros r Hr; simpl in Hr; rewrite Hr; reflexivity.
    + rewrite (filter_drops_all _ _ Hall).
      rewrite (filter_keeps_all (fun r => negb (upgrade_found r)) results).
      * reflexivity.
      * eapply Forall_impl; [| exact Hall].
        intros r Hr; simpl in Hr; rewrite Hr; reflexivity.
Qed.

Lemma sort_results_permutation_witness :
  sort_results [osmosis_result; osmosis_result] =
    [osmosis_result; osmosis_result].
Proof.
  apply (proj2 (proj2 (proj2
           (sort_results_permutation [osmosis_result; osmosis_result]))) true).
  repeat constructor.
Defined.

(** ** Reading back a version *)

Lemma list_ascii_of_append (a b : string) :
  list_ascii_of_string (a ++ b) =
    (list_ascii_of_string a ++ list_ascii_of_string b)%list.
Proof. induction a as [| c a IH]; simpl; [| rewrite IH]; reflexivity. Qed.

Lemma numeric_chars (a : string) (c : ascii) :
  numeric a -> In c (list_ascii_of_string a) -> is_digit c = true.
Proof.
  intros [_ Hall] Hin. unfold all_digits in Hall.
  rewrite Forall_forall in Hall. exact (Hall c Hin).
Qed.

Lemma in_dotted (a r : string) (c : ascii) :
  In c (list_ascii_of_string (a ++ "." ++ r)) ->
  In c (list_ascii_of_string a) \/ c = "."%char \/
  In c (list_ascii_of_string r).
Proof.
  rewrite list_ascii_of_append; cbn [append list_ascii_of_string].
  intros Hin; apply in_app_or in Hin.
  destruct Hin as [Hin | [<- | Hin]]; auto.
Qed.

(** A version is made of digits and dots. *)
Lemma version_shape_chars (g : string) (c : ascii) :
  version_shape g -> In c (list_ascii_of_string g) ->
  is_digit c = true \/ c = "."%char.
Proof.
  intros [a Ha | a b Ha Hb | a b d Ha Hb Hd] Hin.
  - left; exact (numeric_chars a c Ha Hin).
  - apply in_dotted in Hin. destruct Hin as [Hin | [-> | Hin]].
    + left; exact (numeric_chars a c Ha Hin).
    + right; reflexivity.
    + left; exact (numeric_chars b c Hb Hin).
  - apply in_dotted in Hin. destruct Hin as [Hin | [-> | Hin]].
    + left; exact (numeric_chars a c Ha Hin).
    + right; reflexivity.
    + apply in_dotted in Hin. destruct Hin as [Hin | [-> | Hin]].
      * left; exact (numeric_chars b c Hb Hin).
      * right; reflexivity.
      * left; exact (numeric_chars d c Hd Hin).
Qed.

Lemma search_skips_prefix (pre s : string) :
  Forall (fun c => c <> "v"%char) (list_ascii_of_string pre) ->
  search (pre ++ s) = search s.
Proof.
  induction pre as [| c pre IH]; cbn [append list_ascii_of_string];
    [reflexivity |].
  intros Hall. pose proof (Forall_inv Hall) as Hc; simpl in Hc.
  cbn [search match_here].
  apply Ascii.eqb_neq in Hc; rewrite Hc.
  exact (IH (Forall_inv_tail Hall)).
Qed.

Lemma search_here (s g : string) :
  match_here s = Some g -> search s = Some g.
Proof. intros Hm; destruct s; cbn [search]; rewrite Hm; reflexivity. Qed.

(** X15.  A version written after a [v] is read back.  For a text [g] of
    one to three dot-separated groups of digits, [search] finds [g] in
    [pre ++ "v" ++ g ++ post] whenever [pre] holds no [v] and [post] is
    empty or starts with a character that is neither a digit nor a
    dot. *)
Theorem search_reads_back (g pre post : string) :
  version_shape g ->
  Forall (fun c => c <> "v"%char) (list_ascii_of_string pre) ->
  (post = "" \/
   exists c rest, post = String c rest /\ is_digit c = false /\ c <> "."%char) ->
  search (pre ++ "v" ++ g ++ post) = Some g.
Proof.
  intros Hshape Hpre Hpost.
  rewrite (search_skips_prefix pre _ Hpre).
  destruct (match_here_complete g post Hshape) as (extra & Hm).
  assert (Hextra : extra = "").
  { destruct (match_here_sound _ _ Hm) as (post' & Heq & Hshape').
    cbn [append] in Heq; injection Heq as Heq.
    rewrite append_assoc in Heq.
    destruct (append_split_unique g g _ _ Heq eq_refl) as [_ Hrest].
    destruct extra as [| c extra]; [reflexivity | exfalso].
    destruct Hpost as [-> | (c' & rest & -> & Hdigit & Hdot)];
      [discriminate Hrest |].
    cbn [append] in Hrest; injection Hrest as -> _.
    assert (Hin : In c (list_ascii_of_string (g ++ String c extra))).
    { rewrite list_ascii_of_append; apply in_or_app; right; left; reflexivity. }
    destruct (version_shape_chars _ c Hshape' Hin) as [Hd | Hd];
      [rewrite Hd in Hdigit; discriminate Hdigit | contradiction]. }
  subst extra; rewrite append_nil_r in Hm.
  exact (search_here _ _ Hm).
Qed.

Lemma search_reads_back_witness :
  search "gaia-v12.0.3-rc1" = Some "12.0.3".
Proof.
  apply (search_reads_back "12.0.3" "gaia-" "-rc1").
  - apply (shape_patch "12" "0" "3");
      (split; [discriminate | repeat constructor]).
  - repeat constructor; discriminate.
  - right; exists "-"%char, "rc1".
    split; [reflexivity | split; [reflexivity | discriminate]].
Defined.

(** ** The registry *)

Lemma dict_get_object (d : json) (k : string) (default : json) :
  is_object d -> dict_get d k default = Ok (member_or d k default).
Proof.
  intros [items ->]; unfold member_or; simpl.
  destruct (assoc k items); reflexivity.
Qed.

Lemma dict_get_not_object (d : json) (k : string) (default : json) :
  ~ is_object d -> dict_get d k default = Raise AttributeError.
Proof.
  intros Hno; destruct d; try reflexivity.
  contradiction Hno; eexists; reflexivity.
Qed.

Lemma registry_lists_raises (data : json) (e : exn) :
  registry_lists data = Raise e -> e = AttributeError.
Proof.
  unfold registry_lists, rbind.
  destruct (dict_get data "apis" (JDict [])) as [apis | e1] eqn:E1.
  2:{ intros [= <-]; exact (dict_get_raises _ _ _ _ E1). }
  destruct (dict_get apis "rest" (JList [])) as [r | e2] eqn:E2.
  2:{ intros [= <-]; exact (dict_get_raises _ _ _ _ E2). }
  destruct (dict_get apis "rpc" (JList [])) as [p | e3] eqn:E3.
  2:{ intros [= <-]; exact (dict_get_raises _ _ _ _ E3). }
  discriminate.
Qed.

Section Registry.
Context `{Environment}.

Lemma fetch_endpoints_failed network base_url w k w' :
  http_get (base_url ++ "/" ++ network ++ "/chain.json") w = (Failed k, w') ->
  fetch_endpoints network base_url w = (Ok (JList [], JList []), w').
Proof.
  intros Hget.
  unfold fetch_endpoints, try_except, bind, requests_get.
  rewrite Hget; reflexivity.
Qed.

Lemma fetch_endpoints_received network base_url w r w' :
  http_get (base_url ++ "/" ++ network ++ "/chain.json") w = (Received r, w') ->
  fetch_endpoints network base_url w =
    if (400 <=? status_code r) && (status_code r <? 600)
    then (Ok (JList [], JList []), w')
    else
      match json_body r with
      | NotJSON => (Ok (JList [], JList []), w')
      | Decoded data => (registry_lists data, w')
      | Undecodable d => (Raise (decoder_exn d), w')
      end.
Proof.
  intros Hget.
  unfold fetch_endpoints, try_except, bind, requests_get, raise_for_status,
    response_json.
  rewrite Hget.
  destruct ((400 <=? status_code r) && (status_code r <? 600));
    [reflexivity |].
  unfold ret; destruct (json_body r) as [| data | d];
    [reflexivity | | destruct d; reflexivity].
  unfold lift; destruct (registry_lists data) as [lists | e] eqn:Hl;
    [reflexivity |].
  rewrite (registry_lists_raises _ _ Hl); reflexivity.
Qed.


End Registry.


Lemma assoc_dict_set (k k' : string) (v : json) (m : list (string * json)) :
  assoc k' (dict_set k v m) =
    if String.eqb k' k then Some v else assoc k' m.
Proof.
  induction m as [| [k0 v0] m IH]; cbn [dict_set assoc].
  - destruct (String.eqb k' k); reflexivity.
  - destruct (String.eqb k k0) eqn:Hk; cbn [assoc].
    + apply String.eqb_eq in Hk; subst k0.
      destruct (String.eqb k' k); reflexivity.
    + rewrite IH. destruct (String.eqb k' k0) eqn:Hk'; [| reflexivity].
      apply String.eqb_eq in Hk'; subst k0.
      rewrite String.eqb_sym, Hk; reflexivity.
Qed.

Lemma dict_set_keys (k k' : string) (v : json) (m : list (string * json)) :
  In k' (map fst (dict_set k v m)) <-> k' = k \/ In k' (map fst m).
Proof.
  induction m as [| [k0 v0] m IH]; cbn [dict_set map fst In].
  - intuition congruence.
  - destruct (String.eqb k k0) eqn:Hk; cbn [map fst In].
    + apply String.eqb_eq in Hk; subst k0. intuition congruence.
    + rewrite IH. intuition congruence.
Qed.

Lemma dict_set_nodup (k : string) (v : json) (m : list (string * json)) :
  NoDup (map fst m) -> NoDup (map fst (dict_set k v m)).
Proof.
  induction m as [| [k0 v0] m IH]; cbn [dict_set map fst]; intros Hnd.
  - constructor; [intros [] | constructor].
  - destruct (String.eqb k k0) eqn:Hk; cbn [map fst].
    + apply String.eqb_eq in Hk; subst k0; exact Hnd.
    + apply NoDup_cons_iff in Hnd; destruct Hnd as [Hnot Hnd].
      constructor; [| exact (IH Hnd)].
      intros Hin; apply dict_set_keys in Hin.
      apply String.eqb_neq in Hk. destruct Hin as [-> | Hin]; congruence.
Qed.

Section RegistryMap.
Context `{Environment}.

(** What the loop of lines 90-95 builds from the map [m0]. *)
Lemma fetch_all_loop_run base_url names w fetched w' :
  endpoints_fetched base_url names w fetched w' ->
  forall m0,
  exists m,
    fetch_all_loop names base_url m0 w = (Ok m, w') /\
    (NoDup (map fst m0) -> NoDup (map fst m)) /\
    (forall name, In name (map fst m) <->
                  In name names \/ In name (map fst m0)) /\
    (forall name,
        assoc name m =
          match last_fetched name names fetched with
          | Some lists => Some (registry_entry lists)
          | None => assoc name m0
          end).
Proof.
  induction 1 as [w | n names w lists w1 fetched w2 Hfetch _ IH]; intros m0.
  - exists m0; split; [reflexivity |].
    split; [auto |]. split; [| reflexivity].
    intros name; cbn [In]; tauto.
  - destruct (IH (dict_set n (registry_entry lists) m0))
      as (m & Hrun & Hnd & Hkeys & Hassoc).
    exists m. split; [| split; [| split]].
    + cbn [fetch_all_loop]. erewrite bind_ok; [| exact Hfetch]. exact Hrun.
    + intros Hm0; apply Hnd, dict_set_nodup; exact Hm0.
    + intros name; rewrite Hkeys, dict_set_keys; cbn [In].
      intuition congruence.
    + intros name; rewrite Hassoc; cbn [last_fetched].
      destruct (last_fetched name names fetched); [reflexivity |].
      rewrite assoc_dict_set. destruct (String.eqb name n); reflexivity.
Qed.


Lemma fetch_all_loop_raises base_url before w fetched w1 :
  endpoints_fetched base_url before w fetched w1 ->
  forall name after e w2 m0,
    fetch_endpoints name base_url w1 = (Raise e, w2) ->
    fetch_all_loop (before ++ name :: after)%list base_url m0 w =
      (Raise e, w2).
Proof.
  induction 1 as [w | n names w lists w1 fetched w2 Hfetch _ IH];
    intros name after e w3 m0 Hraise; cbn [app fetch_all_loop].
  - erewrite bind_raise; [reflexivity | exact Hraise].
  - erewrite bind_ok; [| exact Hfetch]. apply IH; exact Hraise.
Qed.

(** X18.  One registry document that makes [fetch_endpoints] raise
    makes [fetch_all_endpoints] raise: no map is returned for the names
    fetched before it, and the names after it are not fetched. *)
Theorem fetch_all_endpoints_raises network_type base_url request_data
    before name after w fetched w1 e w2 :
  selected_networks network_type request_data =
    (before ++ name :: after)%list ->
  endpoints_fetched base_url before w fetched w1 ->
  fetch_endpoints name base_url w1 = (Raise e, w2) ->
  fetch_all_endpoints network_type base_url request_data w = (Raise e, w2).
Proof.
  intros Hnames Hfetched Hraise.
  unfold fetch_all_endpoints. fold (selected_networks network_type request_data).
  rewrite Hnames.
  exact (fetch_all_loop_raises _ _ _ _ _ Hfetched _ _ _ _ _ Hraise).
Qed.

End RegistryMap.

Lemma mainnets_fetched :
  @endpoints_fetched registry_network base
    ["osmosis"; "juno"; "osmosis"; "stride"] []
    [ (osmosis_rest, osmosis_rpc); (JList [], JList []);
      (osmosis_rest, osmosis_rpc); (JList [], JList []) ]
    [ base ++ "/osmosis/chain.json"; base ++ "/juno/chain.json";
      base ++ "/osmosis/chain.json"; base ++ "/stride/chain.json" ].
Proof.
  eapply endpoints_fetched_cons; [reflexivity |].
  eapply endpoints_fetched_cons; [reflexivity |].
  eapply endpoints_fetched_cons; [reflexivity |].
  eapply endpoints_fetched_cons; [reflexivity |].
  apply endpoints_fetched_nil.
Defined.


Lemma fetch_all_endpoints_raises_witness :
  @fetch_all_endpoints registry_network "testnet" base registry_payload [] =
    (Raise AttributeError,
     [base ++ "/juno/chain.json"; base ++ "/broken/chain.json"]).
Proof.
  apply (@fetch_all_endpoints_raises registry_network "testnet" base
           registry_payload ["juno"] "broken" ["osmosis"] []
           [(JList [], JList [])] [base ++ "/juno/chain.json"]).
  - reflexivity.
  - eapply endpoints_fetched_cons; [reflexivity | apply endpoints_fetched_nil].
  - reflexivity.
Defined.

(** ** REST node info *)

Section NodeInfo.
Context `{Clock}.


End NodeInfo.

